(** * ebm_utils.analysis.changepoints: a shallow embedding

    The module under study looks for non-monotonicities and discontinuities
    in the shape functions of an additive model.  Its arrays are float64
    [numpy] arrays, which are modelled here by lists of Rocq's primitive
    binary64 floats, so that every arithmetic step of the source is the
    IEEE-754 operation the interpreter performs.  Exceptions are values of
    [exn]; the process-wide [numpy] error configuration that [calc_slopes]
    toggles is an explicit state.

    What the module imports and does not define is a parameter of the
    embedding: [np.exp], [np.argsort], numpy's printing of a float, the
    changepoint detector of [sdt] and [calc_embeddings].  The behaviour of
    [np.array], [pd.DataFrame] and [sort_values] that the two top-level
    functions depend on is written out in [Pd]. *)

From Stdlib Require Import String Ascii List ZArith Lia Bool Floats.
From Stdlib Require Import Permutation.
From Stdlib Require Uint63 DecimalString.
Import ListNotations.

(** ** The Python runtime: exceptions and results *)

Module Py.

Inductive exn : Type :=
| ValueError
| IndexError
| AssertionError.

Inductive result (A : Type) : Type :=
| Ok (a : A)
| Raise (e : exn).

Arguments Ok {A} a.
Arguments Raise {A} e.

Definition rbind {A B} (r : result A) (k : A -> result B) : result B :=
  match r with
  | Ok a => k a
  | Raise e => Raise e
  end.

(** [try: r except IndexError: h] *)
Definition except_IndexError {A} (r : result A) (h : A) : result A :=
  match r with
  | Raise IndexError => Ok h
  | other => other
  end.

(** [len(l)] as a Python integer. *)
Definition len {A} (l : list A) : Z := Z.of_nat (length l).

(** [l[i]] for an integer [i]: negative indices count from the end, and an
    index outside [-len, len) raises [IndexError]. *)
Definition getitem {A} (l : list A) (i : Z) : result A :=
  let j := if (i <? 0)%Z then (i + len l)%Z else i in
  if (j <? 0)%Z then Raise IndexError
  else match nth_error l (Z.to_nat j) with
       | Some a => Ok a
       | None => Raise IndexError
       end.

(** The bound of a slice, clamped the way Python clamps it. *)
Definition slice_bound {A} (l : list A) (i : Z) : nat :=
  let j := if (i <? 0)%Z then (i + len l)%Z else i in
  Z.to_nat (Z.min (Z.max j 0) (len l)).

(** [l[a:b]] *)
Definition slice {A} (l : list A) (a b : Z) : list A :=
  let lo := slice_bound l a in
  let hi := slice_bound l b in
  firstn (hi - lo) (skipn lo l).

(** [range(a, b)] *)
Definition range (a b : Z) : list Z :=
  map (fun k => (a + Z.of_nat k)%Z) (seq 0 (Z.to_nat (b - a))).

(** [enumerate(l)] *)
Definition enumerate {A} (l : list A) : list (Z * A) :=
  combine (map Z.of_nat (seq 0 (length l))) l.

(** A [for] loop whose body updates the loop state or raises. *)
Fixpoint for_each {A S} (body : S -> A -> result S) (l : list A) (s : S)
  : result S :=
  match l with
  | [] => Ok s
  | a :: rest =>
      match body s a with
      | Ok s' => for_each body rest s'
      | Raise e => Raise e
      end
  end.

(** Values whose Python type is only known at run time: the arguments of
    [evaluate_discontinuity_sample] are used as a truth value, as a number
    and as the operand of [== 0.0], whatever was passed. *)
Inductive value : Type :=
| VBool (b : bool)
| VFloat (f : float).

(** [bool(v)]: a float is true unless it compares equal to zero. *)
Definition truthy (v : value) : bool :=
  match v with
  | VBool b => b
  | VFloat f => negb (f =? 0)%float
  end.

(** [v] as an operand of float arithmetic ([True] is 1, [False] is 0). *)
Definition as_float (v : value) : float :=
  match v with
  | VBool true => 1%float
  | VBool false => 0%float
  | VFloat f => f
  end.

(** [v == 0.0] *)
Definition eq_zero (v : value) : bool := (as_float v =? 0)%float.

End Py.
Import Py.

(** ** The part of numpy the module uses *)

Module Np.

(** The modes of [np.seterr] and the four categories it configures. *)
Inductive errmode : Type :=
| ModeIgnore | ModeWarn | ModeRaise | ModeCall | ModePrint | ModeLog.

Record errstate : Type := mk_errstate {
  divide : errmode;
  over : errmode;
  under : errmode;
  invalid : errmode
}.

(** numpy's configuration at start-up. *)
Definition default_errstate : errstate :=
  {| divide := ModeWarn; over := ModeWarn; under := ModeIgnore;
     invalid := ModeWarn |}.

(** A mode under which a floating-point condition of its category lets the
    operation return its IEEE result: [ignore] does nothing and [warn]
    issues a [RuntimeWarning].  Under [raise] numpy raises
    [FloatingPointError]; [call] and [log] run user code. *)
Definition quiet (m : errmode) : bool :=
  match m with
  | ModeIgnore | ModeWarn => true
  | _ => false
  end.

(** The configurations under which line 36 of [calc_slopes] cannot be
    interrupted: division by zero, overflow and underflow are all quiet.
    The [invalid] mode is not constrained, [calc_slopes] sets it to
    [ignore] itself before it divides.  numpy's start-up configuration is
    one of these. *)
Definition untrapped (st : errstate) : Prop :=
  quiet (divide st) = true /\ quiet (over st) = true /\
  quiet (under st) = true.

(** Computations that may raise and that read or write the error
    configuration.  The configuration survives an exception.  Arithmetic
    itself is IEEE arithmetic without traps: the modes are recorded, and a
    mode that would turn a floating-point condition into an exception or a
    callback is not acted upon.  A run of the model from a configuration
    that is not [untrapped] therefore describes the program only as long
    as no trapped condition occurs ([FloatingPointError] is not among the
    exceptions of [Py.exn]); what is stated about results and exceptions
    of the arithmetic is stated for [untrapped] configurations, with
    Python's warning filters left as they are at start-up, so that a
    [RuntimeWarning] is reported and not raised. *)
Definition M (A : Type) : Type := errstate -> result A * errstate.

Definition ret {A} (a : A) : M A := fun st => (Ok a, st).

Definition bind {A B} (m : M A) (k : A -> M B) : M B :=
  fun st =>
    match m st with
    | (Ok a, st') => k a st'
    | (Raise e, st') => (Raise e, st')
    end.

Definition lift {A} (r : result A) : M A := fun st => (r, st).

(** [np.seterr(invalid=m)] *)
Definition seterr_invalid (m : errmode) : M unit :=
  fun st =>
    (Ok tt,
     {| divide := divide st; over := over st; under := under st;
        invalid := m |}).

(** An elementwise binary operation on one-dimensional arrays, with
    numpy's broadcasting: equal lengths pair up, a length-one operand is
    stretched, any other pair of shapes raises [ValueError]. *)
Fixpoint map2 (f : float -> float -> float) (a b : list float) : list float :=
  match a, b with
  | x :: a', y :: b' => f x y :: map2 f a' b'
  | _, _ => []
  end.

Definition elementwise (f : float -> float -> float) (a b : list float)
  : result (list float) :=
  if Nat.eqb (length a) (length b) then Ok (map2 f a b)
  else match a, b with
       | [x], _ => Ok (map (f x) b)
       | _, [y] => Ok (map (fun x => f x y) a)
       | _, _ => Raise ValueError
       end.

(** [np.isfinite] *)
Definition isfinite (f : float) : bool := is_finite f.

(** [np.where(p(a))[0]]: the indices at which [p] holds, ascending. *)
Fixpoint where_from (p : float -> bool) (i : Z) (a : list float) : list Z :=
  match a with
  | [] => []
  | x :: a' =>
      if p x then i :: where_from p (i + 1) a' else where_from p (i + 1) a'
  end.

Definition where_ (p : float -> bool) (a : list float) : list Z :=
  where_from p 0 a.

(** [a[idx]] for an integer index array. *)
Fixpoint take {A} (a : list A) (idx : list Z) : result (list A) :=
  match idx with
  | [] => Ok []
  | i :: idx' =>
      rbind (getitem a i) (fun x =>
      rbind (take a idx') (fun xs => Ok (x :: xs)))
  end.

(** An int64 converted to float64. *)
Definition float_of_Z (z : Z) : float :=
  if (z <? 0)%Z then (- of_uint63 (Uint63.of_Z (- z)))%float
  else of_uint63 (Uint63.of_Z z).

(** [np.mean] of a one-dimensional array: the sum, accumulated from the
    first element, divided by the count; the mean of an empty array is
    NaN. *)
Definition mean (a : list float) : float :=
  match a with
  | [] => nan
  | x :: a' => (fold_left PrimFloat.add a' x / float_of_Z (len a))%float
  end.

End Np.
Import Np.

Declare Scope np_scope.
Delimit Scope np_scope with np.
Notation "x <- m ;; k" := (bind m (fun x => k))
  (at level 61, m at next level, right associativity) : np_scope.
Notation "m ;;; k" := (bind m (fun _ => k))
  (at level 61, right associativity) : np_scope.

(** ** calc_slopes *)

(** Line 36: [(y_arr[1:] - y_arr[:-1]) / (x_arr[1:] - x_arr[:-1])]. *)
Definition difference_quotients (x_arr y_arr : list float)
  : result (list float) :=
  rbind (elementwise PrimFloat.sub (tl y_arr) (removelast y_arr)) (fun dy =>
  rbind (elementwise PrimFloat.sub (tl x_arr) (removelast x_arr)) (fun dx =>
  elementwise PrimFloat.div dy dx)).

(** Line 37: [slopes[~np.isfinite(slopes)] = 0.0]. *)
Definition zero_nonfinite (slopes : list float) : list float :=
  map (fun s => if isfinite s then s else 0%float) slopes.

Definition calc_slopes (x_arr y_arr : list float) : M (list float) :=
  (seterr_invalid ModeIgnore ;;;
   slopes <- lift (difference_quotients x_arr y_arr) ;;
   let slopes := zero_nonfinite slopes in
   seterr_invalid ModeWarn ;;;
   ret slopes)%np.

(** ** pandas: the tables the detectors return *)

Module Pd.

(** What [np.array] builds from a list of equally long rows: a
    two-dimensional array, or, from the empty list, a one-dimensional array
    of length 0.  The cells are strings: a row that mixes a feature name
    with floats is coerced to numpy's unicode type. *)
Inductive ndarray : Type :=
| Arr1 (data : list string)
| Arr2 (width : nat) (rows : list (list string)).

Definition array_of_rows (rows : list (list string)) : ndarray :=
  match rows with
  | [] => Arr1 []
  | r :: _ => Arr2 (length r) rows
  end.

Record DataFrame : Type := mk_DataFrame {
  columns : list string;
  cells : list (list string)
}.

(** [pd.DataFrame(a, columns=cols)] for an array [a]: a one-dimensional
    array is read as a single column, and the constructor raises
    [ValueError] unless the array has one column per label. *)
Definition new_DataFrame (a : ndarray) (cols : list string)
  : result DataFrame :=
  let '(width, rows) :=
    match a with
    | Arr1 data => (1%nat, map (fun c => [c]) data)
    | Arr2 w rows => (w, rows)
    end in
  if Nat.eqb width (length cols)
  then Ok {| columns := cols; cells := rows |}
  else Raise ValueError.

(** The position of a column label. *)
Fixpoint index_of (label : string) (cols : list string) : option nat :=
  match cols with
  | [] => None
  | c :: rest =>
      if String.eqb c label then Some 0%nat
      else option_map S (index_of label rest)
  end.

(** Python's order on [str]: lexicographic on code points. *)
Definition str_lt (a b : string) : bool := String.ltb a b.

(** Insertion into a list sorted in descending key order. *)
Fixpoint insert_desc (key : list string -> string) (r : list string)
  (sorted : list (list string)) : list (list string) :=
  match sorted with
  | [] => [r]
  | r' :: rest =>
      if str_lt (key r') (key r) then r :: sorted
      else r' :: insert_desc key r rest
  end.

(** [df.sort_values(label, ascending=False)] on a column of strings.  The
    order pandas leaves between equal keys is not modelled. *)
Definition sort_values_desc (df : DataFrame) (label : string) : DataFrame :=
  match index_of label (columns df) with
  | None => df
  | Some k =>
      let key := fun r : list string => nth k r EmptyString in
      {| columns := columns df;
         cells := fold_right (insert_desc key) [] (cells df) |}
  end.

End Pd.
Import Pd.

(** A [for] loop in [M]. *)
Fixpoint for_eachM {A S} (body : S -> A -> M S) (l : list A) (s : S) : M S :=
  match l with
  | [] => ret s
  | a :: rest => bind (body s a) (fun s' => for_eachM body rest s')
  end.

(** [m[:, j]] of a matrix kept as its list of rows. *)
Fixpoint column (m : list (list float)) (j : Z) : result (list float) :=
  match m with
  | [] => Ok []
  | row :: m' =>
      rbind (getitem row j) (fun x =>
      rbind (column m' j) (fun xs => Ok (x :: xs)))
  end.

(** The input frame: its column labels and its matrix of values, one row
    per sample.  [data_df[predictor].values] is read as the column at the
    position of [predictor]; labels are taken to be distinct strings, as
    for a frame of named features.  A frame whose column labels are
    numbers is outside the embedding: [np.hstack] of a numeric label with
    the float rows stays a float array, and the tables built from it hold
    numbers, not text. *)
Record Frame : Type := mk_Frame {
  labels : list string;
  values : list (list float)
}.

(** Default arguments. *)
Definition default_min_samples : Z := 100.
Definition default_prob_threshold : float := 0x1.999999999999ap-3%float.
Definition default_counter_causal_only : bool := false.

(** The literal [1e-8] of line 81 (its nearest binary64 value). *)
Definition flat_threshold : float := 0x1.5798ee2308c3ap-27%float.

Section Detectors.

(** [np.exp], [np.argsort], numpy's conversion of a float64 to a string,
    the offline changepoint detector of [sdt.changepoint] and
    [ebm_utils.analysis.embeddings.calc_embeddings] are not part of the
    module: they are parameters of the embedding. *)
Variable np_exp : float -> float.
Variable argsort : list float -> list Z.
Variable float_str : float -> string.
Variable find_changepoints : list float -> float -> list Z.
Context {Explanation : Type}.
Variable calc_embeddings :
  Explanation -> list (list float) -> list (list float).

(** *** calculate_slopes (lines 42-52)

    The result is kept as the list [all_slopes]; [slopes[:, j]] of its
    transposed stack is the [j]-th entry. *)
Definition calculate_slopes (ebm_global : Explanation) (data_df : Frame)
  : M (list (list float)) :=
  let embeddings := calc_embeddings ebm_global (values data_df) in
  for_eachM (fun all_slopes '(j, predictor) =>
    (xs <- lift (column (values data_df) j) ;;
     let order := argsort xs in
     sorted_x <- lift (take xs order) ;;
     sorted_y <- lift (rbind (column embeddings j) (fun e => take e order)) ;;
     slopes <- calc_slopes sorted_x sorted_y ;;
     ret (all_slopes ++ [slopes]))%np)
    (enumerate (labels data_df)) [].

(** *** is_counter_causal (lines 55-65) *)
Definition is_counter_causal (my_slopes : list float) (changepoint : Z)
  : bool :=
  let prev_changepoint := Z.max 0 (changepoint - 1) in
  let next_changepoint := Z.min (changepoint + 1) (len my_slopes - 1) in
  let prev_slopes := mean (slice my_slopes prev_changepoint changepoint) in
  let next_slopes := mean (slice my_slopes changepoint next_changepoint) in
  (next_slopes <? prev_slopes)%float.

(** *** find_non_monotonicities_from_ebm (lines 68-97) *)

(** Lines 81-84: the slopes of magnitude above [1e-8], each divided by its
    absolute value. *)
Definition sign_sequence (my_slopes : list float) : result (list float) :=
  let nonzero_idx :=
    where_ (fun s => (flat_threshold <? abs s)%float) my_slopes in
  rbind (take my_slopes nonzero_idx) (fun kept =>
  Ok (map (fun s => (s / abs s)%float) kept)).

(** Lines 87-92: the loop over the detected changepoints. *)
Definition report_changepoints (counter_causal_only : bool)
  (predictor : string) (sorted_x_nz my_slopes : list float)
  (detected : list Z) (results : list (string * float))
  : result (list (string * float)) :=
  for_each (fun results changepoint =>
    if counter_causal_only && negb (is_counter_causal my_slopes changepoint)
    then Ok results
    else rbind (getitem sorted_x_nz changepoint) (fun x =>
         Ok (results ++ [(predictor, x)])))
    detected results.

(** Lines 79-92: the body of the loop over the features. *)
Definition non_monotonicities_of_feature (data_df : Frame)
  (slopes : list (list float)) (prob_threshold : float)
  (counter_causal_only : bool) (results : list (string * float))
  (jp : Z * string) : result (list (string * float)) :=
  let '(j, predictor) := jp in
  rbind (column (values data_df) j) (fun xs =>
  let order := argsort xs in
  rbind (getitem slopes j) (fun my_slopes =>
  let nonzero_idx :=
    where_ (fun s => (flat_threshold <? abs s)%float) my_slopes in
  rbind (rbind (take xs order) (fun sx => take sx nonzero_idx))
    (fun sorted_x_nz =>
  rbind (sign_sequence my_slopes) (fun my_slopes =>
  if (len my_slopes <? 3)%Z then Ok results
  else report_changepoints counter_causal_only predictor sorted_x_nz
         my_slopes (find_changepoints my_slopes prob_threshold) results)))).

Definition non_monotonicity_columns : list string :=
  ["Feature"; "Value"]%string.

Definition find_non_monotonicities_from_ebm (ebm_global : Explanation)
  (data_df : Frame) (prob_threshold : option float)
  (counter_causal_only : option bool) : M DataFrame :=
  let prob_threshold :=
    match prob_threshold with
    | Some p => p
    | None => default_prob_threshold
    end in
  let counter_causal_only :=
    match counter_causal_only with
    | Some b => b
    | None => default_counter_causal_only
    end in
  (slopes <- calculate_slopes ebm_global data_df ;;
   results <- lift
     (for_each
        (non_monotonicities_of_feature data_df slopes prob_threshold
           counter_causal_only)
        (enumerate (labels data_df)) []) ;;
   lift (new_DataFrame
           (array_of_rows (map (fun r => [fst r; float_str (snd r)]) results))
           non_monotonicity_columns))%np.

(** *** evaluate_discontinuity_sample (lines 100-114)

    The three parameters after [y_vals] are typed by their use only. *)
Definition evaluate_discontinuity_sample (x_val : float)
  (y_vals : float * float) (y_true idx_before_mid slope : value) : float :=
  let '(begin_y_val, end_y_val) := y_vals in
  let disc_val := if truthy idx_before_mid then begin_y_val else end_y_val in
  let cont_val := (begin_y_val + x_val * as_float slope)%float in
  if eq_zero y_true then (cont_val - disc_val)%float
  else (disc_val - cont_val)%float.

(** *** evaluate_discontinuity (lines 117-137)

    The call of line 130 passes its arguments by position:
    [sample <= changepoint] lands in [y_true], [cont_slope] in
    [idx_before_mid] and [y_true[sample]] in [slope]. *)
Definition evaluate_discontinuity (sorted_x sorted_y y_true : list float)
  (changepoints : Z * Z * Z) : result float :=
  let '(prev_changepoint, changepoint, next_changepoint) := changepoints in
  if negb (0 <? changepoint)%Z then Raise AssertionError
  else
    rbind (getitem sorted_y prev_changepoint) (fun begin_y_val =>
    rbind (getitem sorted_y next_changepoint) (fun end_y_val =>
    rbind (getitem sorted_x prev_changepoint) (fun begin_x_val =>
    rbind (getitem sorted_x next_changepoint) (fun end_x_val =>
    let cont_slope :=
      ((end_y_val - begin_y_val) / (end_x_val - begin_x_val))%float in
    for_each (fun log_p_diff sample =>
      rbind (getitem sorted_x sample) (fun x_sample =>
      rbind (getitem y_true sample) (fun y_sample =>
      Ok (log_p_diff +
          evaluate_discontinuity_sample
            (x_sample - begin_x_val)
            (begin_y_val, end_y_val)
            (VBool (sample <=? changepoint)%Z)
            (VFloat cont_slope)
            (VFloat y_sample))%float)))
      (range prev_changepoint next_changepoint) 0%float)))).

(** *** find_discontinuities_in_sorted (lines 140-177) *)

(** Lines 154-157: the next candidate, or [len(slopes) - 1] when the
    lookup raises [IndexError]. *)
Definition next_changepoint_of (changepoints : list Z) (i : Z)
  (slopes : list float) : result Z :=
  except_IndexError (getitem changepoints (i + 1)) (len slopes - 1)%Z.

(** Lines 148-176: the body of the loop over the candidates. *)
Definition discontinuity_step (sorted_x sorted_y y_true : list float)
  (min_samples : Z) (slopes : list float) (changepoints : list Z)
  (discontinuities : list (list float)) (ic : Z * Z)
  : result (list (list float)) :=
  let '(i, changepoint) := ic in
  if (i =? 0)%Z then Ok discontinuities
  else
    rbind (getitem changepoints (i - 1)) (fun prev_changepoint =>
    rbind (next_changepoint_of changepoints i slopes) (fun next_changepoint =>
    rbind (evaluate_discontinuity sorted_x sorted_y y_true
             (prev_changepoint, changepoint, next_changepoint))
      (fun log_p_diff =>
    let n_samples := (next_changepoint - prev_changepoint)%Z in
    if (0 <? log_p_diff)%float && (min_samples <? n_samples)%Z
    then rbind (getitem sorted_x changepoint) (fun x_cp =>
         Ok (discontinuities ++
             [[x_cp; float_of_Z n_samples;
               np_exp (log_p_diff / float_of_Z n_samples)%float;
               log_p_diff]]))
    else Ok discontinuities))).

Definition find_discontinuities_in_sorted
  (sorted_x sorted_y y_true : list float) (min_samples : option Z)
  : M (list (list float)) :=
  let min_samples :=
    match min_samples with Some m => m | None => default_min_samples end in
  (slopes <- calc_slopes sorted_x sorted_y ;;
   let changepoints := where_ (fun s => (0 <? abs s)%float) slopes in
   lift (for_each
           (discontinuity_step sorted_x sorted_y y_true min_samples slopes
              changepoints)
           (enumerate changepoints) []))%np.

(** *** find_discontinuities_from_ebm (lines 180-212) *)

Definition discontinuity_columns : list string :=
  ["Feature"; "Value"; "# Samples"; "Effect Size"; "P-Ratio"]%string.

(** Lines 195-207: the feature's name stacked in front of its rows; the
    stack of strings and floats is an array of strings. *)
Definition tag_rows (predictor : string) (rows : list (list float))
  : list (list string) :=
  map (fun r => predictor :: map float_str r) rows.

Definition find_discontinuities_from_ebm (ebm_global : Explanation)
  (data_df : Frame) (y_true : list float) (min_samples : option Z)
  : M DataFrame :=
  let min_samples :=
    match min_samples with Some m => m | None => default_min_samples end in
  let embeddings := calc_embeddings ebm_global (values data_df) in
  (discontinuities <-
     for_eachM (fun discontinuities '(j, predictor) =>
       (xs <- lift (column (values data_df) j) ;;
        let order := argsort xs in
        sorted_x <- lift (take xs order) ;;
        sorted_y <-
          lift (rbind (column embeddings j) (fun e => take e order)) ;;
        feature_discontinuities <-
          find_discontinuities_in_sorted sorted_x sorted_y y_true
            (Some min_samples) ;;
        if (len feature_discontinuities =? 0)%Z then ret discontinuities
        else ret (discontinuities
                  ++ tag_rows predictor feature_discontinuities)))
       (enumerate (labels data_df)) [] ;;
   discontinuities_df <- lift
     (new_DataFrame (array_of_rows discontinuities) discontinuity_columns) ;;
   ret (sort_values_desc discontinuities_df "P-Ratio"))%np.

End Detectors.

(** ** Vocabulary of the statements *)

(** The evaluation windows [(prev, cp, next)] of the candidates at
    positions 1, 2, ... of the candidate list: the predecessor, the
    candidate, and the successor or, for the last one, [n_slopes - 1]. *)
Definition evaluation_windows (changepoints : list Z) (n_slopes : Z)
  : list (Z * Z * Z) :=
  map (fun k =>
         (nth (k - 1) changepoints 0%Z,
          nth k changepoints 0%Z,
          nth (k + 1) changepoints (n_slopes - 1)%Z))
      (seq 1 (length changepoints - 1)).

(** What a window with score [log_p_diff] contributes to the output: one
    row [(x at cp, n, exp(log_p_diff / n), log_p_diff)] when the score is
    positive and the window holds more than [min_samples] samples. *)
Definition window_rows (np_exp : float -> float) (sorted_x : list float)
  (min_samples : Z) (scored : Z * Z * Z * float) : list (list float) :=
  let '(prev_changepoint, changepoint, next_changepoint, log_p_diff) :=
    scored in
  let n := (next_changepoint - prev_changepoint)%Z in
  if (0 <? log_p_diff)%float && (min_samples <? n)%Z
  then [[nth (Z.to_nat changepoint) sorted_x 0%float;
         float_of_Z n;
         np_exp (log_p_diff / float_of_Z n)%float;
         log_p_diff]]
  else [].

(** The per-sample contribution as section 4.3 of the specification words
    it: a step function that is [begin_y] up to and including the
    changepoint, against the line through the window's first point. *)
Definition specified_contribution (begin_x begin_y end_y cont_slope : float)
  (changepoint sample : Z) (x_sample y_true_sample : float) : float :=
  let continuous_value :=
    (begin_y + (x_sample - begin_x) * cont_slope)%float in
  let discontinuous_value :=
    if (sample <=? changepoint)%Z then begin_y else end_y in
  if (y_true_sample =? 0)%float
  then (continuous_value - discontinuous_value)%float
  else (discontinuous_value - continuous_value)%float.

(** The window score of the specification: the sum of the contributions
    of the samples in [prev, next). *)
Definition specified_log_p_diff (sorted_x sorted_y y_true : list float)
  (window : Z * Z * Z) : result float :=
  let '(prev_changepoint, changepoint, next_changepoint) := window in
  rbind (getitem sorted_y prev_changepoint) (fun begin_y =>
  rbind (getitem sorted_y next_changepoint) (fun end_y =>
  rbind (getitem sorted_x prev_changepoint) (fun begin_x =>
  rbind (getitem sorted_x next_changepoint) (fun end_x =>
  let cont_slope := ((end_y - begin_y) / (end_x - begin_x))%float in
  for_each (fun total sample =>
    rbind (getitem sorted_x sample) (fun x_sample =>
    rbind (getitem y_true sample) (fun y_sample =>
    Ok (total +
        specified_contribution begin_x begin_y end_y cont_slope
          changepoint sample x_sample y_sample)%float)))
    (range prev_changepoint next_changepoint) 0%float)))).

(** The comparison of [is_counter_causal], in the words of section 4.2. *)
Definition mean_prev (signs : list float) (c : Z) : float :=
  mean (slice signs (Z.max 0 (c - 1)) c).

Definition mean_next (signs : list float) (c : Z) : float :=
  mean (slice signs c (Z.min (c + 1) (len signs - 1))).

(** A row of the discontinuity table: a label of the frame, a value [x]
    of that label's column, a sample count [n] above the threshold and a
    positive score, the four numbers printed by [float_str]. *)
Definition discontinuity_row_ok (np_exp : float -> float)
  (float_str : float -> string) (data_df : Frame) (threshold : Z)
  (row : list string) : Prop :=
  exists j label xs x n log_p_diff,
    nth_error (labels data_df) j = Some label /\
    column (values data_df) (Z.of_nat j) = Ok xs /\ In x xs /\
    row = [label; float_str x; float_str (float_of_Z n);
           float_str (np_exp (log_p_diff / float_of_Z n)%float);
           float_str log_p_diff] /\
    (0 <? log_p_diff)%float = true /\ (threshold < n)%Z.

(** A row of the non-monotonicity table: a label of the frame and a value
    of that label's column, printed by [float_str]. *)
Definition non_monotonicity_row_ok (float_str : float -> string)
  (data_df : Frame) (row : list string) : Prop :=
  exists j label xs x,
    nth_error (labels data_df) j = Some label /\
    column (values data_df) (Z.of_nat j) = Ok xs /\ In x xs /\
    row = [label; float_str x].

(** ** Stand-ins for the external functions, for the concrete runs *)

Module Fixture.

(** Any function serves as [np.exp] in the runs below. *)
Definition exp_stand_in (x : float) : float := (1 + x)%float.

(** [np.argsort] of an array that is already strictly ascending. *)
Definition argsort_sorted (a : list float) : list Z := range 0 (len a).

(** numpy's text for a non-negative whole float: its digits and [.0].
    Other floats are not printed by this stand-in. *)
Definition whole_float_str (f : float) : string :=
  match Prim2SF f with
  | S754_zero _ => "0.0"%string
  | S754_finite false m e =>
      let whole :=
        if (0 <=? e)%Z then Some (Z.pos m * 2 ^ e)%Z
        else if (Z.pos m mod 2 ^ (- e) =? 0)%Z
             then Some (Z.pos m / 2 ^ (- e))%Z
             else None in
      match whole with
      | Some z =>
          (DecimalString.NilEmpty.string_of_uint (N.to_uint (Z.to_N z))
           ++ ".0")%string
      | None => EmptyString
      end
  | _ => EmptyString
  end.

(** A detector that reports the given indices. *)
Definition detector (found : list Z) (_ : list float) (_ : float) : list Z :=
  found.

(** An explanation whose embedding is the given matrix. *)
Definition embeddings (m : list (list float)) (_ : unit)
  (_ : list (list float)) : list (list float) := m.

(** A frame with one feature. *)
Definition one_feature (name : string) (xs : list float) : Frame :=
  {| labels := [name]; values := map (fun x => [x]) xs |}.

End Fixture.

(** * Properties *)

(** ** Facts about binary64 arithmetic *)

Section FloatFacts.
Local Open Scope float_scope.

Lemma eqb_zero_spec (d : float) :
  (d =? 0) = true -> exists s, Prim2SF d = S754_zero s.
Proof.
  rewrite eqb_spec. change (Prim2SF 0) with (S754_zero false).
  unfold SFeqb, SFcompare.
  destruct (Prim2SF d) as [s| s | | s m e]; try discriminate.
  - intros _. now exists s.
  - destruct s; discriminate.
  - destruct s; discriminate.
Qed.

(** NaN and the infinities are not finite. *)
Lemma is_finite_SF (q : float) :
  match Prim2SF q with
  | S754_nan | S754_infinity _ => is_finite q = false
  | _ => True
  end.
Proof.
  unfold is_finite, is_nan, is_infinity.
  rewrite !eqb_spec, abs_spec.
  change (Prim2SF infinity) with (S754_infinity false).
  destruct (Prim2SF q) as [s| s | | s m e]; cbn; auto.
  now rewrite orb_true_r.
Qed.

(** A quotient by a zero is NaN or an infinity, whatever the dividend. *)
Lemma div_zero_not_finite (a d : float) :
  (d =? 0) = true -> is_finite (a / d) = false.
Proof.
  intros Hd. destruct (eqb_zero_spec _ Hd) as [s Hs].
  pose proof (is_finite_SF (a / d)) as H.
  rewrite div_spec, Hs in H. unfold SF64div, SFdiv in H.
  destruct (Prim2SF a); exact H.
Qed.

End FloatFacts.

(** ** Lists and arrays *)

Section ListFacts.

Lemma map2_length f a b :
  length (map2 f a b) = Nat.min (length a) (length b).
Proof.
  revert b; induction a as [|x a IH]; intros [|y b]; cbn; auto.
Qed.

Lemma map2_nth_error f a b i x y :
  nth_error a i = Some x -> nth_error b i = Some y ->
  nth_error (map2 f a b) i = Some (f x y).
Proof.
  revert b i; induction a as [|x0 a IH]; intros [|y0 b] [|i]; cbn;
    try discriminate.
  - now intros [= ->] [= ->].
  - apply IH.
Qed.

Lemma elementwise_same f a b :
  length a = length b -> elementwise f a b = Ok (map2 f a b).
Proof.
  intros H. unfold elementwise. now rewrite H, Nat.eqb_refl.
Qed.

Lemma elementwise_raise f a b e :
  elementwise f a b = Raise e -> e = ValueError.
Proof.
  unfold elementwise. destruct (Nat.eqb _ _); [discriminate|].
  destruct a as [|x [|x' a]]; destruct b as [|y [|y' b]];
    try discriminate; now intros [= <-].
Qed.

Lemma nth_error_tl {A} (l : list A) i : nth_error (tl l) i = nth_error l (S i).
Proof. destruct l; cbn; auto. now destruct i. Qed.

Lemma nth_error_removelast {A} (l : list A) i :
  i < length l - 1 -> nth_error (removelast l) i = nth_error l i.
Proof.
  intros H. rewrite removelast_firstn_len, nth_error_firstn.
  destruct (Nat.ltb_spec i (Nat.pred (length l))); auto. lia.
Qed.

Lemma length_removelast {A} (l : list A) : length (removelast l) = length l - 1.
Proof.
  rewrite removelast_firstn_len, length_firstn. lia.
Qed.

Lemma skipn_cons {A} (l : list A) (k : nat) (c : A) (t : list A) :
  skipn k l = c :: t -> nth_error l k = Some c /\ skipn (S k) l = t.
Proof.
  revert l; induction k as [|k IH]; intros [|x l]; cbn; try discriminate.
  - now intros [= -> ->].
  - intros H. now apply IH in H.
Qed.

End ListFacts.

(** ** Indexing, loops and candidates *)

Section Runtime.

Lemma getitem_nonneg {A} (l : list A) (i : Z) :
  (0 <= i)%Z ->
  getitem l i = match nth_error l (Z.to_nat i) with
                | Some a => Ok a
                | None => Raise IndexError
                end.
Proof.
  intros H. unfold getitem.
  destruct (Z.ltb_spec i 0); [lia|].
  destruct (Z.ltb_spec i 0); [lia|]. reflexivity.
Qed.

Lemma getitem_raise {A} (l : list A) (i : Z) e :
  getitem l i = Raise e -> e = IndexError.
Proof.
  unfold getitem.
  destruct (_ <? 0)%Z; [now intros [= <-]|].
  destruct (nth_error _ _); [discriminate|now intros [= <-]].
Qed.

Lemma getitem_in_range {A} (l : list A) (k : nat) (d : A) :
  (k < length l)%nat -> getitem l (Z.of_nat k) = Ok (nth k l d).
Proof.
  intros H. rewrite getitem_nonneg by lia. rewrite Nat2Z.id.
  now rewrite (nth_error_nth' l d H).
Qed.

Lemma getitem_nth {A} (l : list A) (i : Z) (d x : A) :
  (0 <= i)%Z -> getitem l i = Ok x -> x = nth (Z.to_nat i) l d.
Proof.
  intros H. rewrite getitem_nonneg by assumption.
  destruct (nth_error l (Z.to_nat i)) eqn:E; [|discriminate].
  intros [= <-]. symmetry. now apply nth_error_nth.
Qed.

Lemma rbind_never {A B} (e : exn) (r : result A) (k : A -> result B) :
  r <> Raise e -> (forall a, r = Ok a -> k a <> Raise e) ->
  rbind r k <> Raise e.
Proof.
  destruct r as [a|e']; cbn; intros H K; [now apply K|].
  intros [= ->]. now apply H.
Qed.

(** A loop raises [e] only if some iteration does. *)
Lemma for_each_never {A S} (e : exn) (body : S -> A -> result S) l :
  (forall s a, In a l -> body s a <> Raise e) ->
  forall s, for_each body l s <> Raise e.
Proof.
  induction l as [|a l IH]; intros H s; cbn; [discriminate|].
  destruct (body s a) as [s'|e'] eqn:E.
  - apply IH. intros; apply H; now right.
  - intros [= ->]. now apply (H s a (or_introl eq_refl)).
Qed.

Lemma in_enumerate_from {A} (l : list A) (start : nat) i a :
  In (i, a) (combine (map Z.of_nat (seq start (length l))) l) ->
  exists k, i = Z.of_nat (start + k) /\ nth_error l k = Some a.
Proof.
  revert start; induction l as [|x l IH]; intros start; cbn; [tauto|].
  intros [[= <- <-]|H].
  - exists 0%nat. split; [f_equal; lia|reflexivity].
  - destruct (IH _ H) as (k & -> & Hk). exists (S k).
    split; [f_equal; lia|exact Hk].
Qed.

Lemma in_enumerate {A} (l : list A) i a :
  In (i, a) (enumerate l) ->
  (0 <= i)%Z /\ nth_error l (Z.to_nat i) = Some a.
Proof.
  intros H. destruct (in_enumerate_from l 0 i a H) as (k & -> & Hk).
  cbn. split; [lia|]. now rewrite Nat2Z.id.
Qed.

(** The indices [np.where] returns ascend strictly from the start: the
    one at position [k] is at least [start + k]. *)
Lemma where_from_lower p start a k v :
  nth_error (where_from p start a) k = Some v ->
  (start + Z.of_nat k <= v)%Z.
Proof.
  revert start k; induction a as [|x a IH]; intros start k; cbn.
  - now destruct k.
  - destruct (p x).
    + destruct k as [|k]; cbn.
      * intros [= <-]. lia.
      * intros H. apply IH in H. lia.
    + intros H. apply IH in H. lia.
Qed.

Lemma where_from_nonneg p start a :
  (0 <= start)%Z -> Forall (fun c => (0 <= c)%Z) (where_from p start a).
Proof.
  revert start; induction a as [|x a IH]; intros start H; cbn; [constructor|].
  destruct (p x); [constructor; [exact H|]|]; apply IH; lia.
Qed.

(** The candidate at position [i] of the candidate list is at least [i]. *)
Lemma candidate_at_least_position p a i cp :
  In (i, cp) (enumerate (where_ p a)) -> (i <= cp)%Z.
Proof.
  intros H. apply in_enumerate in H as [Hi H].
  apply where_from_lower in H. lia.
Qed.

End Runtime.

(** ** calc_slopes *)

Section CalcSlopes.
Local Open Scope float_scope.

Lemma forward_differences (a : list float) :
  elementwise PrimFloat.sub (tl a) (removelast a)
  = Ok (map2 PrimFloat.sub (tl a) (removelast a)).
Proof.
  apply elementwise_same. now rewrite length_tl, length_removelast.
Qed.

Lemma difference_quotients_eq (x y : list float) :
  length x = length y ->
  difference_quotients x y
  = Ok (map2 PrimFloat.div
          (map2 PrimFloat.sub (tl y) (removelast y))
          (map2 PrimFloat.sub (tl x) (removelast x))).
Proof.
  intros H. unfold difference_quotients.
  rewrite !forward_differences. cbn.
  apply elementwise_same.
  now rewrite !map2_length, !length_tl, !length_removelast, H.
Qed.

Lemma difference_quotients_nth (x y q : list float) i :
  length x = length y ->
  difference_quotients x y = Ok q ->
  (i < length x - 1)%nat ->
  nth_error q i
  = Some ((nth (S i) y 0 - nth i y 0) / (nth (S i) x 0 - nth i x 0)).
Proof.
  intros H Hq Hi. rewrite difference_quotients_eq in Hq by assumption.
  injection Hq as <-.
  assert (D : forall a : list float, (i < length a - 1)%nat ->
            nth_error (map2 PrimFloat.sub (tl a) (removelast a)) i
            = Some (nth (S i) a 0 - nth i a 0)).
  { intros a Ha. apply map2_nth_error.
    - rewrite nth_error_tl. apply nth_error_nth'. lia.
    - rewrite nth_error_removelast by assumption. apply nth_error_nth'. lia. }
  apply map2_nth_error; apply D; lia.
Qed.

Lemma difference_quotients_length (x y q : list float) :
  length x = length y ->
  difference_quotients x y = Ok q ->
  length q = (length x - 1)%nat.
Proof.
  intros H Hq. rewrite difference_quotients_eq in Hq by assumption.
  injection Hq as <-.
  rewrite !map2_length, !length_tl, !length_removelast. lia.
Qed.

Lemma difference_quotients_raise (x y : list float) e :
  difference_quotients x y = Raise e -> e = ValueError.
Proof.
  unfold difference_quotients.
  destruct (elementwise PrimFloat.sub (tl y) _) eqn:E1; cbn;
    [|intros [= <-]; now apply elementwise_raise in E1].
  destruct (elementwise PrimFloat.sub (tl x) _) eqn:E2; cbn;
    [|intros [= <-]; now apply elementwise_raise in E2].
  apply elementwise_raise.
Qed.

(** What a call returns and the error configuration it leaves behind. *)
Lemma calc_slopes_run (x y : list float) (st : errstate) :
  calc_slopes x y st
  = match difference_quotients x y with
    | Ok q =>
        (Ok (zero_nonfinite q),
         {| divide := divide st; over := over st; under := under st;
            invalid := ModeWarn |})
    | Raise e =>
        (Raise e,
         {| divide := divide st; over := over st; under := under st;
            invalid := ModeIgnore |})
    end.
Proof.
  unfold calc_slopes, bind, lift, seterr_invalid, ret. cbn.
  now destruct (difference_quotients x y).
Qed.

Lemma zero_nonfinite_finite (q : list float) s :
  In s (zero_nonfinite q) -> is_finite s = true.
Proof.
  unfold zero_nonfinite, isfinite. rewrite in_map_iff.
  intros (r & <- & _). now destruct (is_finite r) eqn:E.
Qed.

(** C4, as amended.  Under a configuration in which division by zero,
    overflow and underflow do not trap (each [ignore] or [warn], as at
    start-up), for equal-length arrays [x] and [y] of length [n >= 1],
    [calc_slopes] returns [n - 1] slopes, none of which is NaN or
    infinite; slope [i] is the binary64 quotient
    [(y[i+1] - y[i]) / (x[i+1] - x[i])] whenever that quotient is finite
    and exactly [0.0] otherwise; in particular it is exactly [0.0] on
    every interval whose x-difference is zero.  Under [divide = raise]
    the division of line 36 raises [FloatingPointError] on such an
    interval, which is why the configuration is constrained. *)
Theorem calc_slopes_guarded_quotients (x y : list float) (st : errstate) :
  untrapped st ->
  length x = length y -> (1 <= length x)%nat ->
  exists slopes,
    fst (calc_slopes x y st) = Ok slopes /\
    length slopes = (length x - 1)%nat /\
    (forall s, In s slopes -> is_finite s = true) /\
    forall i, (i < length x - 1)%nat ->
      let dx := nth (S i) x 0 - nth i x 0 in
      let q := (nth (S i) y 0 - nth i y 0) / dx in
      nth_error slopes i = Some (if is_finite q then q else 0) /\
      ((dx =? 0) = true -> nth_error slopes i = Some 0).
Proof.
  intros _ H Hn. rewrite calc_slopes_run.
  pose proof (difference_quotients_eq x y H) as E.
  destruct (difference_quotients x y) as [q|e] eqn:Hq; [|discriminate].
  exists (zero_nonfinite q). cbn [fst]. split; [reflexivity|]. split.
  { unfold zero_nonfinite. rewrite length_map.
    eapply difference_quotients_length; eauto. }
  split; [apply zero_nonfinite_finite|].
  intros i Hi. set (dx := nth (S i) x 0 - nth i x 0). set (qi := _ / dx).
  assert (N : nth_error (zero_nonfinite q) i
              = Some (if is_finite qi then qi else 0)).
  { unfold zero_nonfinite. rewrite nth_error_map.
    rewrite (difference_quotients_nth x y q i H Hq Hi). reflexivity. }
  split; [exact N|].
  intros Hz. rewrite N. subst qi. now rewrite div_zero_not_finite.
Qed.

End CalcSlopes.

(** The theorem at [x = [0, 1, 1, 3]], [y = [0, 2, 5, 5]]: three slopes,
    the one over the repeated [x] exactly zero. *)
Lemma calc_slopes_guarded_quotients_run :
  exists slopes,
    fst (calc_slopes [0; 1; 1; 3]%float [0; 2; 5; 5]%float default_errstate)
    = Ok slopes /\
    length slopes = 3%nat /\
    nth_error slopes 1 = Some 0%float.
Proof.
  destruct (calc_slopes_guarded_quotients [0; 1; 1; 3]%float
              [0; 2; 5; 5]%float default_errstate
              (conj eq_refl (conj eq_refl eq_refl)) eq_refl
              (le_S _ _ (le_S _ _ (le_S _ _ (le_n 1)))))
    as (slopes & Hrun & Hlen & _ & Hnth).
  exists slopes. split; [exact Hrun|]. split; [exact Hlen|].
  exact (proj2 (Hnth 1%nat (le_S _ _ (le_n 2))) eq_refl).
Defined.

(** C4 as stated fails where the quotient overflows: the x-difference
    [2^-600] is not zero, the quotient of the differences is [+inf], and
    the slope returned is [0.0], not the quotient. *)
Lemma overflowing_quotient_is_zeroed :
  let x := [0; 0x1p-600]%float in
  let y := [0; 0x1p600]%float in
  (nth 1 x 0 - nth 0 x 0 =? 0)%float = false /\
  ((nth 1 y 0 - nth 0 y 0) / (nth 1 x 0 - nth 0 x 0))%float = infinity /\
  fst (calc_slopes x y default_errstate) = Ok [0%float].
Proof. repeat split. Qed.

(** After a call that returns, the [invalid] mode is [warn], whatever it
    was before; the other three modes are untouched. *)
Lemma calc_slopes_leaves_warn (x y slopes : list float) (st st' : errstate) :
  calc_slopes x y st = (Ok slopes, st') ->
  st' = {| divide := divide st; over := over st; under := under st;
           invalid := ModeWarn |}.
Proof.
  rewrite calc_slopes_run.
  destruct (difference_quotients x y); [now intros [= _ <-]|discriminate].
Qed.

(** C9 fails on a configuration whose [invalid] mode is not [warn]: a
    caller that had set it to [raise] finds it set to [warn] after the
    call. *)
Theorem invalid_mode_not_restored :
  let before :=
    {| divide := ModeWarn; over := ModeWarn; under := ModeIgnore;
       invalid := ModeRaise |} in
  calc_slopes [0; 1]%float [0; 2]%float before
  = (Ok [2%float],
     {| divide := ModeWarn; over := ModeWarn; under := ModeIgnore;
        invalid := ModeWarn |}).
Proof. reflexivity. Qed.

(** ** The assertion of evaluate_discontinuity *)

Section Assertion.

Variable np_exp : float -> float.

(** With a positive changepoint the only exception left is [IndexError]. *)
Lemma evaluate_discontinuity_asserts sorted_x sorted_y y_true prev cp next :
  (0 < cp)%Z ->
  evaluate_discontinuity sorted_x sorted_y y_true (prev, cp, next)
  <> Raise AssertionError.
Proof.
  intros H. unfold evaluate_discontinuity.
  destruct (Z.ltb_spec 0 cp) as [_|]; [cbn [negb]|lia].
  repeat (apply rbind_never;
          [intros E; apply getitem_raise in E; discriminate|intros ? _]).
  apply for_each_never. intros acc smp _.
  repeat (apply rbind_never;
          [intros E; apply getitem_raise in E; discriminate|intros ? _]).
  discriminate.
Qed.

Lemma next_changepoint_of_ok cps i slopes :
  exists n, next_changepoint_of cps i slopes = Ok n.
Proof.
  unfold next_changepoint_of, except_IndexError.
  destruct (getitem cps (i + 1)) as [n|e] eqn:E; [now exists n|].
  apply getitem_raise in E as ->. eauto.
Qed.

(** No iteration of the candidate loop raises [AssertionError]: position 0
    is skipped, and a candidate at a later position is positive. *)
Lemma discontinuity_step_asserts sorted_x sorted_y y_true min_samples slopes
  p acc i cp :
  In (i, cp) (enumerate (where_ p slopes)) ->
  discontinuity_step np_exp sorted_x sorted_y y_true min_samples slopes
    (where_ p slopes) acc (i, cp)
  <> Raise AssertionError.
Proof.
  intros Hin. unfold discontinuity_step.
  destruct (Z.eqb_spec i 0) as [|Hi]; [discriminate|].
  apply rbind_never;
    [intros E; apply getitem_raise in E; discriminate|intros prev _].
  destruct (next_changepoint_of_ok (where_ p slopes) i slopes) as [n ->].
  cbn [rbind]. apply rbind_never.
  - apply evaluate_discontinuity_asserts.
    pose proof (candidate_at_least_position _ _ _ _ Hin).
    apply in_enumerate in Hin as [? _]. lia.
  - intros lpd _. destruct (_ && _); [|discriminate].
    apply rbind_never;
      [intros E; apply getitem_raise in E; discriminate|discriminate].
Qed.

Lemma find_discontinuities_in_sorted_asserts sorted_x sorted_y y_true
  min_samples st :
  fst (find_discontinuities_in_sorted np_exp sorted_x sorted_y y_true
         min_samples st)
  <> Raise AssertionError.
Proof.
  unfold find_discontinuities_in_sorted, bind.
  rewrite calc_slopes_run.
  destruct (difference_quotients sorted_x sorted_y) as [q|e] eqn:Hq; cbn.
  - apply for_each_never. intros acc [i cp] Hin.
    now apply discontinuity_step_asserts.
  - apply difference_quotients_raise in Hq as ->. discriminate.
Qed.

(** C10.  Whatever its arguments, [find_discontinuities_in_sorted] either
    returns its rows or raises [ValueError] (arrays that do not broadcast)
    or [IndexError] (an array too short): the assertion
    [changepoint > 0] of [evaluate_discontinuity] never fails under it. *)
Theorem assertion_never_fails (sorted_x sorted_y y_true : list float)
  (min_samples : option Z) (st : errstate) :
  (exists rows,
     fst (find_discontinuities_in_sorted np_exp sorted_x sorted_y y_true
            min_samples st) = Ok rows) \/
  fst (find_discontinuities_in_sorted np_exp sorted_x sorted_y y_true
         min_samples st) = Raise ValueError \/
  fst (find_discontinuities_in_sorted np_exp sorted_x sorted_y y_true
         min_samples st) = Raise IndexError.
Proof.
  pose proof (find_discontinuities_in_sorted_asserts sorted_x sorted_y y_true
                min_samples st) as H.
  destruct (fst (find_discontinuities_in_sorted np_exp sorted_x sorted_y
                   y_true min_samples st)) as [rows|[]].
  - left. now exists rows.
  - right. now left.
  - right. now right.
  - now contradiction H.
Qed.

End Assertion.

(** ** The counter-causal filter and the short sign sequences *)

Section NonMonotonicities.

Variable argsort : list float -> list Z.
Variable find_changepoints : list float -> float -> list Z.

Lemma is_counter_causal_means (signs : list float) (c : Z) :
  is_counter_causal signs c = (mean_next signs c <? mean_prev signs c)%float.
Proof. reflexivity. Qed.

(** C7.  When the loop over the detected changepoints returns, the rows
    it added are those of the changepoints it kept, in order, each with
    the x-value at its index.  With the filter on, [c] is kept exactly
    when [mean(signs[max(0,c-1):c]) > mean(signs[c:min(c+1,len-1)])]; with
    the filter off every detected changepoint is kept. *)
Theorem counter_causal_filter (counter_causal_only : bool)
  (predictor : string) (sorted_x_nz signs : list float) (detected : list Z)
  (results rows : list (string * float)) :
  report_changepoints counter_causal_only predictor sorted_x_nz signs
    detected results = Ok rows ->
  let kept :=
    filter (fun c =>
              if counter_causal_only
              then (mean_next signs c <? mean_prev signs c)%float
              else true)
           detected in
  exists xs,
    Forall2 (fun c x => getitem sorted_x_nz c = Ok x) kept xs /\
    rows = results ++ map (pair predictor) xs.
Proof.
  unfold report_changepoints. revert results.
  induction detected as [|c detected IH]; intros results;
    cbn [for_each filter].
  - intros [= <-]. exists []. split; [constructor|now rewrite app_nil_r].
  - rewrite is_counter_causal_means.
    destruct counter_causal_only; cbn [andb negb].
    + destruct (mean_next signs c <? mean_prev signs c)%float; cbn [negb].
      * destruct (getitem sorted_x_nz c) as [x|e] eqn:E; cbn; [|discriminate].
        intros H. destruct (IH _ H) as (xs & F & ->).
        exists (x :: xs). split; [now constructor|].
        cbn. now rewrite <- app_assoc.
      * apply IH.
    + destruct (getitem sorted_x_nz c) as [x|e] eqn:E; cbn; [|discriminate].
      intros H. destruct (IH _ H) as (xs & F & ->).
      exists (x :: xs). split; [now constructor|].
      cbn. now rewrite <- app_assoc.
Qed.

(** C8.  A feature whose sign sequence has fewer than three entries adds
    no row: the loop body hands back the rows it was given (or raises),
    whatever the detector, the threshold and the filter. *)
Theorem short_sign_sequence_no_rows (data_df : Frame)
  (slopes : list (list float)) (prob_threshold : float)
  (counter_causal_only : bool) (results : list (string * float))
  (j : Z) (predictor : string) (my_slopes signs : list float) :
  getitem slopes j = Ok my_slopes ->
  sign_sequence my_slopes = Ok signs ->
  (length signs < 3)%nat ->
  non_monotonicities_of_feature argsort find_changepoints data_df slopes
    prob_threshold counter_causal_only results (j, predictor) = Ok results
  \/ exists e,
      non_monotonicities_of_feature argsort find_changepoints data_df slopes
        prob_threshold counter_causal_only results (j, predictor) = Raise e.
Proof.
  intros Hs Hsig Hlen. unfold non_monotonicities_of_feature.
  destruct (column (values data_df) j) as [xs|e]; cbn [rbind]; [|eauto].
  rewrite Hs; cbn [rbind].
  destruct (rbind (take xs (argsort xs)) _) as [sx|e]; cbn [rbind]; [|eauto].
  rewrite Hsig; cbn [rbind].
  destruct (Z.ltb_spec (len signs) 3) as [_|H]; [now left|].
  unfold len in H. lia.
Qed.

End NonMonotonicities.

(** The filter on a shape that rises and then falls: of the detected
    indices 2 and 3 only 3, where the sign turns from +1 to -1, is kept. *)
Lemma counter_causal_filter_run :
  exists xs,
    Forall2 (fun c x => getitem [1; 2; 3; 4; 5; 6]%float c = Ok x)
      (filter (fun c => (mean_next [1; 1; 1; -1; -1; -1] c
                         <? mean_prev [1; 1; 1; -1; -1; -1] c)%float)
         [2; 3]%Z) xs /\
    [("dose"%string, 4%float)] = [] ++ map (pair "dose"%string) xs.
Proof.
  exact (counter_causal_filter true "dose" [1; 2; 3; 4; 5; 6]%float
           [1; 1; 1; -1; -1; -1]%float [2; 3]%Z []
           [("dose"%string, 4%float)] eq_refl).
Defined.

(** A feature with the two signs [+1, -1] and a detector that reports
    index 1 all the same. *)
Lemma short_sign_sequence_no_rows_run :
  non_monotonicities_of_feature Fixture.argsort_sorted
    (Fixture.detector [1%Z]) (Fixture.one_feature "dose" [1; 2; 3]%float)
    [[1; -1]%float] default_prob_threshold false [] (0%Z, "dose"%string)
  = Ok []
  \/ exists e,
      non_monotonicities_of_feature Fixture.argsort_sorted
        (Fixture.detector [1%Z]) (Fixture.one_feature "dose" [1; 2; 3]%float)
        [[1; -1]%float] default_prob_threshold false [] (0%Z, "dose"%string)
      = Raise e.
Proof.
  apply (short_sign_sequence_no_rows Fixture.argsort_sorted
           (Fixture.detector [1%Z])
           (Fixture.one_feature "dose" [1; 2; 3]%float)
           [[1; -1]%float] default_prob_threshold false [] 0%Z "dose"%string
           [1; -1]%float [1; -1]%float); [reflexivity|reflexivity|cbn; lia].
Defined.

(** ** The rows of find_discontinuities_in_sorted *)

Section Discontinuities.

Variable np_exp : float -> float.

(** The lookup of lines 154-157 at a position of the candidate list. *)
Lemma next_changepoint_of_nth (cps : list Z) (k : nat) (slopes : list float) :
  next_changepoint_of cps (Z.of_nat k) slopes
  = Ok (nth (k + 1) cps (len slopes - 1)%Z).
Proof.
  unfold next_changepoint_of.
  replace (Z.of_nat k + 1)%Z with (Z.of_nat (k + 1)) by lia.
  rewrite getitem_nonneg by lia. rewrite Nat2Z.id.
  destruct (nth_error cps (k + 1)) as [v|] eqn:E; cbn.
  - now rewrite (nth_error_nth _ _ _ E).
  - apply nth_error_None in E. now rewrite nth_overflow.
Qed.

(** The loop from position [k >= 1] on: it evaluates the window of every
    remaining candidate and appends the rows of those that pass. *)
Lemma discontinuity_loop (sorted_x sorted_y y_true : list float)
  (min_samples : Z) (slopes : list float) (cps : list Z) :
  Forall (fun c => (0 <= c)%Z) cps ->
  let window_at := fun k =>
    (nth (k - 1) cps 0%Z, nth k cps 0%Z,
     nth (k + 1) cps (len slopes - 1)%Z) in
  forall (t : list Z) (k : nat) (acc rows : list (list float)),
    (1 <= k)%nat -> skipn k cps = t ->
    for_each
      (discontinuity_step np_exp sorted_x sorted_y y_true min_samples slopes cps)
      (combine (map Z.of_nat (seq k (length t))) t) acc = Ok rows ->
    exists scores,
      Forall2 (fun w lpd =>
                 evaluate_discontinuity sorted_x sorted_y y_true w = Ok lpd)
              (map window_at (seq k (length t))) scores /\
      rows = acc ++ flat_map (window_rows np_exp sorted_x min_samples)
                      (combine (map window_at (seq k (length t))) scores).
Proof.
  intros Hpos window_at t.
  induction t as [|c t IH]; intros k acc rows Hk Hskip;
    cbn [length seq map combine for_each].
  - intros [= <-]. exists []. split; [constructor|]. cbn. now rewrite app_nil_r.
  - apply skipn_cons in Hskip as [Hc Hskip].
    assert (Hlt : (k < length cps)%nat) by (apply nth_error_Some; congruence).
    unfold discontinuity_step at 1.
    destruct (Z.eqb_spec (Z.of_nat k) 0) as [|_]; [lia|].
    replace (Z.of_nat k - 1)%Z with (Z.of_nat (k - 1)) by lia.
    rewrite (getitem_in_range cps (k - 1) 0%Z) by lia. cbn [rbind].
    rewrite next_changepoint_of_nth. cbn [rbind].
    assert (Ec : c = nth k cps 0%Z) by (symmetry; now apply nth_error_nth).
    rewrite Ec.
    change (nth (k - 1) cps 0%Z, nth k cps 0%Z,
            nth (k + 1) cps (len slopes - 1)%Z) with (window_at k).
    destruct (evaluate_discontinuity sorted_x sorted_y y_true (window_at k))
      as [lpd|e] eqn:Ev; cbn [rbind]; [|discriminate].
    assert (Hc0 : (0 <= nth k cps 0)%Z).
    { rewrite Forall_forall in Hpos. apply Hpos, nth_In, Hlt. }
    destruct ((0 <? lpd)%float &&
              (min_samples <? nth (k + 1) cps (len slopes - 1) - nth (k - 1) cps 0)%Z)
      eqn:Hcond.
    + destruct (getitem sorted_x (nth k cps 0%Z)) as [x|e] eqn:Ex;
        cbn [rbind]; [|discriminate].
      intros H. destruct (IH _ _ _ (le_S _ _ Hk) Hskip H) as (scores & F & ->).
      exists (lpd :: scores). split; [now constructor|].
      cbn [combine flat_map]. unfold window_rows at 2. unfold window_at at 2.
      cbv beta iota.
      rewrite Hcond. rewrite (getitem_nth sorted_x _ 0%float x Hc0 Ex).
      now rewrite <- app_assoc.
    + intros H. destruct (IH _ _ _ (le_S _ _ Hk) Hskip H) as (scores & F & ->).
      exists (lpd :: scores). split; [now constructor|].
      cbn [combine flat_map]. unfold window_rows at 2. unfold window_at at 2.
      cbv beta iota. now rewrite Hcond.
Qed.

(** C5.  When [find_discontinuities_in_sorted] returns, every window
    [(prev, cp, next)] of a candidate after the first was evaluated to a
    score [log_p_diff], and the rows returned are, window by window, the
    row [(sorted_x[cp], n, exp(log_p_diff / n), log_p_diff)] with
    [n = next - prev] if [log_p_diff > 0] and [n > min_samples], and no
    row otherwise; [min_samples] is 100 when it is not given. *)
Theorem discontinuity_rows (sorted_x sorted_y y_true : list float)
  (min_samples : option Z) (st st' : errstate) (rows : list (list float)) :
  find_discontinuities_in_sorted np_exp sorted_x sorted_y y_true min_samples st
  = (Ok rows, st') ->
  exists slopes scores,
    fst (calc_slopes sorted_x sorted_y st) = Ok slopes /\
    let candidates := where_ (fun s => (0 <? abs s)%float) slopes in
    let windows := evaluation_windows candidates (len slopes) in
    let threshold := match min_samples with Some m => m | None => 100%Z end in
    Forall2 (fun w lpd =>
               evaluate_discontinuity sorted_x sorted_y y_true w = Ok lpd)
            windows scores /\
    rows = flat_map (window_rows np_exp sorted_x threshold)
             (combine windows scores).
Proof.
  unfold find_discontinuities_in_sorted, bind, lift.
  destruct (calc_slopes sorted_x sorted_y st) as [[slopes|e] st1] eqn:Hc;
    [|discriminate].
  intros [= H _]. exists slopes.
  set (cps := where_ (fun s => (0 <? abs s)%float) slopes) in *.
  unfold enumerate in H. unfold evaluation_windows.
  destruct cps as [|c0 t] eqn:Ecps.
  - cbn in H. injection H as <-. exists []. cbn. repeat split. constructor.
  - cbn [length seq map combine for_each] in H.
    unfold discontinuity_step at 1 in H. cbn [Z.of_nat Z.eqb] in H.
    pose proof (discontinuity_loop sorted_x sorted_y y_true
                  (match min_samples with
                   | Some m => m
                   | None => default_min_samples
                   end)
                  slopes (c0 :: t)) as L.
    rewrite <- Ecps in L. specialize (L (where_from_nonneg _ _ _ (Z.le_refl 0))).
    rewrite Ecps in L. cbv zeta in L.
    destruct (L t 1%nat [] rows (le_n 1) eq_refl H) as (scores & F & ->).
    exists scores. cbn [fst].
    replace (length (c0 :: t) - 1)%nat with (length t) by (cbn; lia).
    split; [reflexivity|]. split; [exact F|reflexivity].
Qed.

End Discontinuities.

(** ** find_discontinuities_in_sorted returns on aligned arrays *)

Section Returns.

Variable np_exp : float -> float.

Lemma for_each_ok {A S} (body : S -> A -> result S) l :
  (forall s a, In a l -> exists s', body s a = Ok s') ->
  forall s, exists r, for_each body l s = Ok r.
Proof.
  induction l as [|a l IH]; intros H s; cbn; [eauto|].
  destruct (H s a (or_introl eq_refl)) as [s' ->].
  apply IH. intros; apply H; now right.
Qed.

Lemma in_range (a b s : Z) : In s (range a b) -> (a <= s < b)%Z.
Proof.
  unfold range. rewrite in_map_iff. intros (k & <- & Hk).
  apply in_seq in Hk. lia.
Qed.

Lemma getitem_ok {A} (l : list A) (i : Z) :
  (0 <= i < len l)%Z -> exists x, getitem l i = Ok x.
Proof.
  intros H. rewrite getitem_nonneg by lia.
  destruct (nth_error l (Z.to_nat i)) eqn:E; [eauto|].
  apply nth_error_None in E. unfold len in H. lia.
Qed.

Lemma where_from_bounds p start a :
  Forall (fun c => (start <= c < start + len a)%Z) (where_from p start a).
Proof.
  revert start; induction a as [|x a IH]; intros start; cbn; [constructor|].
  assert (T : Forall (fun c => (start <= c < start + len (x :: a))%Z)
                (where_from p (start + 1) a)).
  { eapply Forall_impl; [|apply IH]. unfold len. cbn [length]. intros c; lia. }
  destruct (p x); [constructor; [unfold len; cbn [length]; lia|]|]; exact T.
Qed.

Lemma evaluate_discontinuity_returns sorted_x sorted_y y_true prev cp next :
  (0 < cp)%Z -> (0 <= prev)%Z ->
  (prev < len sorted_x)%Z -> (0 <= next < len sorted_x)%Z ->
  len sorted_y = len sorted_x -> len y_true = len sorted_x ->
  exists lpd,
    evaluate_discontinuity sorted_x sorted_y y_true (prev, cp, next) = Ok lpd.
Proof.
  intros Hcp Hp Hpn Hn Hy Ht. unfold evaluate_discontinuity.
  destruct (Z.ltb_spec 0 cp) as [_|]; [cbn [negb]|lia].
  destruct (getitem_ok sorted_y prev) as [? ->]; [lia|].
  destruct (getitem_ok sorted_y next) as [? ->]; [lia|].
  destruct (getitem_ok sorted_x prev) as [? ->]; [lia|].
  destruct (getitem_ok sorted_x next) as [? ->]; [lia|].
  cbn [rbind]. apply for_each_ok. intros acc s Hs. apply in_range in Hs.
  destruct (getitem_ok sorted_x s) as [? ->]; [lia|].
  destruct (getitem_ok y_true s) as [? ->]; [lia|].
  cbn [rbind]. eauto.
Qed.

(** X14.  Under a configuration in which division by zero, overflow and
    underflow do not trap, on arrays of one length the call returns:
    every index it uses is in range. *)
Theorem find_discontinuities_in_sorted_returns
  (sorted_x sorted_y y_true : list float) (min_samples : option Z)
  (st : errstate) :
  untrapped st ->
  length sorted_y = length sorted_x -> length y_true = length sorted_x ->
  exists rows st',
    find_discontinuities_in_sorted np_exp sorted_x sorted_y y_true
      min_samples st = (Ok rows, st').
Proof.
  intros _ Hy Ht. unfold find_discontinuities_in_sorted, bind, lift.
  rewrite calc_slopes_run.
  pose proof (difference_quotients_eq sorted_x sorted_y (eq_sym Hy)) as E.
  destruct (difference_quotients sorted_x sorted_y) as [q|e] eqn:Hq;
    [|discriminate].
  assert (Hlen : len (zero_nonfinite q) = (len sorted_x - 1)%Z \/
                 (sorted_x = [] /\ q = [])).
  { pose proof (difference_quotients_length _ _ _ (eq_sym Hy) Hq) as L.
    unfold len, zero_nonfinite. rewrite length_map, L.
    destruct sorted_x; [right|left; cbn [length]; lia].
    split; [reflexivity|]. now destruct q. }
  set (slopes := zero_nonfinite q) in *.
  set (cps := where_ (fun s => (0 <? abs s)%float) slopes).
  pose proof (where_from_bounds (fun s => (0 <? abs s)%float) 0 slopes) as B.
  fold (where_ (fun s => (0 <? abs s)%float) slopes) in B. fold cps in B.
  rewrite Forall_forall in B.
  assert (Hs : (len slopes < len sorted_x)%Z \/ cps = []).
  { destruct Hlen as [->|[_ ->]]; [left; lia|right; reflexivity]. }
  destruct (for_each_ok
              (discontinuity_step np_exp sorted_x sorted_y y_true
                 match min_samples with
                 | Some m => m
                 | None => default_min_samples
                 end slopes cps) (enumerate cps)) with (s := @nil (list float))
    as [rows ->]; [|eauto].
  intros acc [i cp] Hin.
  destruct Hs as [Hs|Hs]; [|rewrite Hs in Hin; destruct Hin].
  pose proof (candidate_at_least_position _ _ _ _ Hin) as Hicp.
  apply in_enumerate in Hin as [Hi Hnth].
  pose proof (B _ (nth_error_In _ _ Hnth)) as Bcp.
  unfold discontinuity_step.
  destruct (Z.eqb_spec i 0) as [|Hi0]; [eauto|].
  assert (Hlt : (Z.to_nat i < length cps)%nat)
    by (apply nth_error_Some; congruence).
  replace (i - 1)%Z with (Z.of_nat (Z.to_nat i - 1)) by lia.
  rewrite (getitem_in_range cps (Z.to_nat i - 1) 0%Z) by lia. cbn [rbind].
  replace (next_changepoint_of cps i slopes)
    with (next_changepoint_of cps (Z.of_nat (Z.to_nat i)) slopes)
    by (f_equal; lia).
  rewrite next_changepoint_of_nth. cbn [rbind].
  assert (Bprev : (0 <= nth (Z.to_nat i - 1) cps 0 < 0 + len slopes)%Z)
    by (apply B, nth_In; lia).
  assert (Bnext : (0 <= nth (Z.to_nat i + 1) cps (len slopes - 1)
                   < 0 + len slopes)%Z).
  { destruct (Nat.lt_ge_cases (Z.to_nat i + 1) (length cps)) as [L|L].
    - apply B, nth_In, L.
    - rewrite nth_overflow by exact L. lia. }
  destruct (evaluate_discontinuity_returns sorted_x sorted_y y_true
              (nth (Z.to_nat i - 1) cps 0%Z) cp
              (nth (Z.to_nat i + 1) cps (len slopes - 1)%Z))
    as [lpd ->]; try (unfold len in *; lia).
  cbn [rbind]. destruct (_ && _); [|eauto].
  destruct (getitem_ok sorted_x cp) as [x ->]; [lia|]. cbn [rbind]. eauto.
Qed.

End Returns.

(** C6, as amended.  When there is no [candidates[i+1]], the next
    changepoint is [len(slopes) - 1], the last index of the slope
    sequence; for slopes computed from [n >= 1] samples that is [n - 2],
    the index before the last sample. *)
Theorem next_changepoint_fallback (sorted_x sorted_y : list float)
  (st : errstate) (slopes : list float) (changepoints : list Z) (i : Z) :
  length sorted_x = length sorted_y -> (1 <= length sorted_x)%nat ->
  fst (calc_slopes sorted_x sorted_y st) = Ok slopes ->
  (0 <= i)%Z -> (len changepoints <= i + 1)%Z ->
  next_changepoint_of changepoints i slopes = Ok (len slopes - 1)%Z /\
  (len slopes - 1 = len sorted_x - 2)%Z.
Proof.
  intros Hxy Hn Hs Hi Hlast. split.
  - unfold next_changepoint_of. rewrite getitem_nonneg by lia.
    assert (E : nth_error changepoints (Z.to_nat (i + 1)) = None).
    { apply nth_error_None. unfold len in Hlast. lia. }
    now rewrite E.
  - rewrite calc_slopes_run in Hs.
    destruct (difference_quotients sorted_x sorted_y) as [q|e] eqn:Hq;
      [|discriminate].
    injection Hs as <-. unfold len, zero_nonfinite. rewrite length_map.
    rewrite (difference_quotients_length _ _ _ Hxy Hq). lia.
Qed.

(** The fallback for four samples whose three slopes are all candidates. *)
Lemma next_changepoint_fallback_run :
  next_changepoint_of [0; 1; 2]%Z 2 [1; 2; 3]%float = Ok 2%Z /\
  (len [1; 2; 3]%float - 1 = len [0; 1; 2; 3]%float - 2)%Z.
Proof.
  apply (next_changepoint_fallback [0; 1; 2; 3]%float [0; 1; 3; 6]%float
           default_errstate [1; 2; 3]%float [0; 1; 2]%Z 2%Z);
    try reflexivity; cbn; lia.
Defined.

(** C6 as stated fails: with four samples the last valid sample index is
    3, and the last candidate's next changepoint is 2. *)
Lemma fallback_is_before_last_sample :
  let sorted_x := [0; 1; 2; 3]%float in
  let sorted_y := [0; 1; 3; 6]%float in
  let slopes := [1; 2; 3]%float in
  let candidates := [0; 1; 2]%Z in
  fst (calc_slopes sorted_x sorted_y default_errstate) = Ok slopes /\
  where_ (fun s => (0 <? abs s)%float) slopes = candidates /\
  next_changepoint_of candidates 2 slopes = Ok 2%Z /\
  (len sorted_x - 1 = 3)%Z.
Proof. repeat split. Qed.

(** The rows for a shape with five jumps, [min_samples = 3]: the windows
    of the candidates at positions 1 and 3 score 10 and 2. *)
Lemma discontinuity_rows_run :
  exists slopes scores,
    fst (calc_slopes [0; 1; 4; 6; 7; 7.25; 7.5; 8.5; 9; 10; 11]%float
           [0; 1; 2; 2; 2; 3; 4; 4; 4; 5; 5]%float default_errstate)
    = Ok slopes /\
    let candidates := where_ (fun s => (0 <? abs s)%float) slopes in
    let windows := evaluation_windows candidates (len slopes) in
    let threshold := 3%Z in
    Forall2 (fun w lpd =>
               evaluate_discontinuity
                 [0; 1; 4; 6; 7; 7.25; 7.5; 8.5; 9; 10; 11]%float
                 [0; 1; 2; 2; 2; 3; 4; 4; 4; 5; 5]%float
                 [0; 0; 1; 1; 0; 0; 1; 1; 0; 0; 0]%float w = Ok lpd)
            windows scores /\
    [[1; 4; 3.5; 10]; [7.25; 4; 1.5; 2]]%float
    = flat_map (window_rows Fixture.exp_stand_in
                  [0; 1; 4; 6; 7; 7.25; 7.5; 8.5; 9; 10; 11]%float threshold)
        (combine windows scores).
Proof.
  exact (discontinuity_rows Fixture.exp_stand_in
           [0; 1; 4; 6; 7; 7.25; 7.5; 8.5; 9; 10; 11]%float
           [0; 1; 2; 2; 2; 3; 4; 4; 4; 5; 5]%float
           [0; 0; 1; 1; 0; 0; 1; 1; 0; 0; 0]%float
           (Some 3%Z) default_errstate default_errstate
           [[1; 4; 3.5; 10]; [7.25; 4; 1.5; 2]]%float eq_refl).
Defined.

(** ** The window score *)

Section Score.
Local Open Scope float_scope.

(** Called with its arguments in the order of its parameters, the
    per-sample function computes the contribution the specification
    describes. *)
Lemma sample_arguments_in_order (begin_x begin_y end_y cont_slope : float)
  (changepoint sample : Z) (x_sample y_sample : float) :
  evaluate_discontinuity_sample (x_sample - begin_x) (begin_y, end_y)
    (VFloat y_sample) (VBool (sample <=? changepoint)%Z) (VFloat cont_slope)
  = specified_contribution begin_x begin_y end_y cont_slope changepoint
      sample x_sample y_sample.
Proof. reflexivity. Qed.

(** C1 fails on the code.  The call of line 130 hands
    [sample <= changepoint] to [y_true], [cont_slope] to [idx_before_mid]
    and [y_true[sample]] to [slope]; on the window [(0, 2, 3)] below the
    code sums to 0 where the contributions of the claim sum to 6. *)
Theorem window_score_differs :
  let sorted_x := [0; 1; 2; 4; 5] in
  let sorted_y := [0; 1; 1; 8; 8] in
  let y_true := [0; 0; 0; 1; 1] in
  evaluate_discontinuity sorted_x sorted_y y_true (0, 2, 3)%Z = Ok 0 /\
  specified_log_p_diff sorted_x sorted_y y_true (0, 2, 3)%Z = Ok 6.
Proof. split; reflexivity. Qed.

End Score.

(** ** The result tables *)

Section Tables.
Local Open Scope float_scope.

(** An array built from no rows has one dimension, and no table with two
    or five columns is made of it. *)
Lemma no_rows_no_table :
  new_DataFrame (array_of_rows []) non_monotonicity_columns = Raise ValueError
  /\ new_DataFrame (array_of_rows []) discontinuity_columns = Raise ValueError.
Proof. split; reflexivity. Qed.

(** C2 fails on the code.  The rows reach the table as strings, and
    [sort_values] orders the [P-Ratio] column as strings: for one feature
    whose two windows score 10 and 2, the row with [2.0] comes first. *)
Theorem table_sorted_as_strings (np_exp : float -> float)
  (argsort : list float -> list Z) (float_str : float -> string)
  (Explanation : Type)
  (calc_embeddings : Explanation -> list (list float) -> list (list float))
  (ebm_global : Explanation) :
  let xs := [0; 1; 4; 6; 7; 7.25; 7.5; 8.5; 9; 10; 11] in
  let shape := [0; 1; 2; 2; 2; 3; 4; 4; 4; 5; 5] in
  let y_true := [0; 0; 1; 1; 0; 0; 1; 1; 0; 0; 0] in
  argsort xs = range 0 11 ->
  calc_embeddings ebm_global (map (fun x => [x]) xs)
  = map (fun v => [v]) shape ->
  float_str 2 = "2.0"%string ->
  float_str 10 = "10.0"%string ->
  exists df,
    fst (find_discontinuities_from_ebm np_exp argsort float_str
           calc_embeddings ebm_global (Fixture.one_feature "dose" xs) y_true
           (Some 3%Z) default_errstate) = Ok df /\
    map (fun r => nth 4 r EmptyString) (cells df)
    = ["2.0"; "10.0"]%string.
Proof.
  intros xs shape y_true Hsort Hemb H2 H10.
  vm_compute in Hsort, Hemb.
  eexists. split.
  - vm_compute. rewrite Hemb. vm_compute. rewrite Hsort. vm_compute.
    rewrite H10. vm_compute. rewrite H2. vm_compute. reflexivity.
  - reflexivity.
Qed.

(** C3 fails on the code.  For a feature whose shape function is flat no
    detector finds a row, and each of them raises [ValueError] where it
    builds its table. *)
Theorem empty_results_raise (np_exp : float -> float)
  (argsort : list float -> list Z) (float_str : float -> string)
  (find_changepoints : list float -> float -> list Z)
  (Explanation : Type)
  (calc_embeddings : Explanation -> list (list float) -> list (list float))
  (ebm_global : Explanation)
  (prob_threshold : option float) (counter_causal_only : option bool)
  (min_samples : option Z) :
  let xs := [1; 2; 3] in
  let flat_shape := [0; 0; 0] in
  let y_true := [0; 1; 0] in
  argsort xs = range 0 3 ->
  calc_embeddings ebm_global (map (fun x => [x]) xs)
  = map (fun v => [v]) flat_shape ->
  fst (find_non_monotonicities_from_ebm argsort float_str find_changepoints
         calc_embeddings ebm_global (Fixture.one_feature "dose" xs)
         prob_threshold counter_causal_only default_errstate)
  = Raise ValueError /\
  fst (find_discontinuities_from_ebm np_exp argsort float_str
         calc_embeddings ebm_global (Fixture.one_feature "dose" xs) y_true
         min_samples default_errstate)
  = Raise ValueError.
Proof.
  intros xs flat_shape y_true Hsort Hemb.
  vm_compute in Hsort, Hemb.
  split.
  - destruct prob_threshold, counter_causal_only;
      vm_compute; rewrite Hemb; vm_compute; rewrite Hsort; reflexivity.
  - destruct min_samples;
      vm_compute; rewrite Hemb; vm_compute; rewrite Hsort; reflexivity.
Qed.

End Tables.

(** The badly ordered table, with the stand-ins for the external
    functions. *)
Lemma table_sorted_as_strings_run :
  exists df,
    fst (find_discontinuities_from_ebm Fixture.exp_stand_in
           Fixture.argsort_sorted Fixture.whole_float_str
           (Fixture.embeddings
              (map (fun v => [v]) [0; 1; 2; 2; 2; 3; 4; 4; 4; 5; 5]%float))
           tt
           (Fixture.one_feature "dose"
              [0; 1; 4; 6; 7; 7.25; 7.5; 8.5; 9; 10; 11]%float)
           [0; 0; 1; 1; 0; 0; 1; 1; 0; 0; 0]%float
           (Some 3%Z) default_errstate) = Ok df /\
    map (fun r => nth 4 r EmptyString) (cells df)
    = ["2.0"; "10.0"]%string.
Proof.
  apply (table_sorted_as_strings Fixture.exp_stand_in Fixture.argsort_sorted
           Fixture.whole_float_str unit
           (Fixture.embeddings
              (map (fun v => [v]) [0; 1; 2; 2; 2; 3; 4; 4; 4; 5; 5]%float))
           tt); reflexivity.
Defined.

(** The two failing calls, with the stand-ins for the external
    functions. *)
Lemma empty_results_raise_run :
  fst (find_non_monotonicities_from_ebm Fixture.argsort_sorted
         Fixture.whole_float_str (Fixture.detector [])
         (Fixture.embeddings (map (fun v => [v]) [0; 0; 0]%float)) tt
         (Fixture.one_feature "dose" [1; 2; 3]%float)
         None None default_errstate)
  = Raise ValueError /\
  fst (find_discontinuities_from_ebm Fixture.exp_stand_in
         Fixture.argsort_sorted Fixture.whole_float_str
         (Fixture.embeddings (map (fun v => [v]) [0; 0; 0]%float)) tt
         (Fixture.one_feature "dose" [1; 2; 3]%float) [0; 1; 0]%float
         None default_errstate)
  = Raise ValueError.
Proof.
  apply (empty_results_raise Fixture.exp_stand_in Fixture.argsort_sorted
           Fixture.whole_float_str (Fixture.detector []) unit
           (Fixture.embeddings (map (fun v => [v]) [0; 0; 0]%float)) tt
           None None None); reflexivity.
Defined.

(** * Further properties of the module *)

(** ** calc_slopes: the configuration it leaves *)

Section MoreCalcSlopes.

Lemma elementwise_mismatch f a b :
  length a <> length b -> length a <> 1%nat -> length b <> 1%nat ->
  elementwise f a b = Raise ValueError.
Proof.
  intros Hab Ha Hb. unfold elementwise.
  destruct (Nat.eqb_spec (length a) (length b)); [contradiction|].
  destruct a as [|x [|x' a]]; destruct b as [|y [|y' b]];
    cbn in *; congruence.
Qed.

(** X1.  A call of [calc_slopes] that returns leaves the [invalid] mode
    at [warn] and does not touch the [divide], [over] and [under] modes. *)
Theorem calc_slopes_keeps_other_modes (x y slopes : list float)
  (st st' : errstate) :
  calc_slopes x y st = (Ok slopes, st') ->
  invalid st' = ModeWarn /\
  divide st' = divide st /\ over st' = over st /\ under st' = under st.
Proof.
  intros H. apply calc_slopes_leaves_warn in H as ->. cbn. auto.
Qed.

(** X2.  Under a configuration in which division by zero, overflow and
    underflow do not trap (so that the two subtractions of line 36
    return), on arrays whose differences do not broadcast (different
    lengths, neither of length two) [calc_slopes] raises [ValueError]
    before its second [np.seterr]: the [invalid] mode stays at
    [ignore]. *)
Theorem calc_slopes_mismatch_keeps_ignore (x y : list float) (st : errstate) :
  untrapped st ->
  (length x - 1 <> length y - 1)%nat ->
  length x <> 2%nat -> length y <> 2%nat ->
  calc_slopes x y st
  = (Raise ValueError,
     {| divide := divide st; over := over st; under := under st;
        invalid := ModeIgnore |}).
Proof.
  intros _ Hxy Hx Hy. rewrite calc_slopes_run.
  unfold difference_quotients. rewrite !forward_differences. cbn [rbind].
  rewrite elementwise_mismatch; [reflexivity| | |];
    rewrite !map2_length, !length_tl, !length_removelast; lia.
Qed.

End MoreCalcSlopes.


(** ** The sign sequence and the counter-causal test *)

Section Signs.
Local Open Scope float_scope.

Lemma ltb_nan_r (x : float) : (x <? nan) = false.
Proof.
  rewrite ltb_spec. change (Prim2SF nan) with S754_nan.
  unfold SFltb, SFcompare. now destruct (Prim2SF x).
Qed.

Lemma ltb_nan_l (x : float) : (nan <? x) = false.
Proof.
  rewrite ltb_spec. change (Prim2SF nan) with S754_nan. reflexivity.
Qed.

Lemma slice_empty {A} (l : list A) (a b : Z) :
  (slice_bound l b <= slice_bound l a)%nat -> slice l a b = [].
Proof.
  intros H. unfold slice.
  replace (slice_bound l b - slice_bound l a)%nat with 0%nat by lia.
  reflexivity.
Qed.

Lemma slice_one {A} (l : list A) (c : Z) (d : A) :
  (0 <= c < len l)%Z -> slice l c (c + 1) = [nth (Z.to_nat c) l d].
Proof.
  intros H. unfold slice, slice_bound, len in *.
  destruct (Z.ltb_spec c 0); [lia|]. destruct (Z.ltb_spec (c + 1) 0); [lia|].
  replace (Z.to_nat (Z.min (Z.max (c + 1) 0) (Z.of_nat (length l)))
           - Z.to_nat (Z.min (Z.max c 0) (Z.of_nat (length l))))%nat
    with 1%nat by lia.
  replace (Z.to_nat (Z.min (Z.max c 0) (Z.of_nat (length l))))
    with (Z.to_nat c) by lia.
  assert (L : (Z.to_nat c < length l)%nat) by lia.
  revert L. generalize (Z.to_nat c). clear H H0 H1.
  induction l as [|x l IH]; intros [|n] L; cbn in *; try lia; auto.
  apply IH. lia.
Qed.

Lemma take_where_from (p : float -> bool) (pre a : list float) :
  take (pre ++ a) (where_from p (len pre) a) = Ok (filter p a).
Proof.
  revert pre; induction a as [|x a IH]; intros pre; cbn [where_from filter];
    [reflexivity|].
  assert (E : (len pre + 1)%Z = len (pre ++ [x])).
  { unfold len. rewrite length_app. cbn. lia. }
  assert (R : take (pre ++ x :: a) (where_from p (len pre + 1) a)
              = Ok (filter p a)).
  { rewrite E. replace (pre ++ x :: a) with ((pre ++ [x]) ++ a)
      by now rewrite <- app_assoc.
    apply IH. }
  destruct (p x); [|exact R].
  cbn [take]. unfold len in *. rewrite getitem_nonneg by lia.
  rewrite Nat2Z.id, nth_error_app2, Nat.sub_diag by lia.
  cbn [nth_error rbind]. now rewrite R.
Qed.

(** X4.  Lines 81-84 never raise: indexing the slopes by [np.where] of
    the threshold test keeps, in order, exactly the slopes of magnitude
    above [1e-8], and each is then divided by its absolute value. *)
Theorem sign_sequence_filters (my_slopes : list float) :
  sign_sequence my_slopes
  = Ok (map (fun s => s / abs s)
          (filter (fun s => flat_threshold <? abs s) my_slopes)).
Proof.
  unfold sign_sequence, where_.
  now rewrite (take_where_from _ [] my_slopes).
Qed.

Lemma mean_prev_first (signs : list float) : mean_prev signs 0 = nan.
Proof. unfold mean_prev. now rewrite slice_empty. Qed.

Lemma mean_next_last (signs : list float) (c : Z) :
  (len signs - 1 <= c)%Z -> mean_next signs c = nan.
Proof.
  intros H. unfold mean_next. rewrite slice_empty; [reflexivity|].
  unfold slice_bound, len in *.
  destruct (Z.ltb_spec c 0), (Z.ltb_spec (Z.min (c + 1) (Z.of_nat (length signs) - 1)) 0);
    lia.
Qed.

Lemma counter_causal_is_interior (signs : list float) (c : Z) :
  is_counter_causal signs c = true -> (0 <= c)%Z ->
  (1 <= c <= len signs - 2)%Z.
Proof.
  intros H Hc. rewrite is_counter_causal_means in H.
  destruct (Z.eq_dec c 0) as [->|].
  - now rewrite mean_prev_first, ltb_nan_r in H.
  - destruct (Z_le_gt_dec (len signs - 1) c) as [L|L]; [|lia].
    now rewrite (mean_next_last _ _ L), ltb_nan_l in H.
Qed.


Lemma counter_causal_interior (signs : list float) (c : Z) :
  (1 <= c <= len signs - 2)%Z ->
  is_counter_causal signs c
  = (nth (Z.to_nat c) signs 0 / 1 <? nth (Z.to_nat (c - 1)) signs 0 / 1).
Proof.
  intros H. rewrite is_counter_causal_means. unfold mean_next, mean_prev.
  replace (Z.min (c + 1) (len signs - 1)) with (c + 1)%Z by lia.
  replace (Z.max 0 (c - 1)) with (c - 1)%Z by lia.
  rewrite (slice_one signs c 0) by lia.
  replace c with (c - 1 + 1)%Z at 3 by lia.
  rewrite (slice_one signs (c - 1) 0) by lia.
  reflexivity.
Qed.

(** X6.  At an interior index of a sequence of signs only the two entries
    [signs[c-1]] and [signs[c]] are compared: the changepoint is
    counter-causal exactly when the sign goes from [+1] to [-1]. *)
Theorem counter_causal_on_signs (signs : list float) (c : Z) :
  (1 <= c <= len signs - 2)%Z ->
  (nth (Z.to_nat (c - 1)) signs 0 = 1 \/ nth (Z.to_nat (c - 1)) signs 0 = -1) ->
  (nth (Z.to_nat c) signs 0 = 1 \/ nth (Z.to_nat c) signs 0 = -1) ->
  is_counter_causal signs c = true
  <-> nth (Z.to_nat (c - 1)) signs 0 = 1 /\ nth (Z.to_nat c) signs 0 = -1.
Proof.
  intros H Hp Hc. rewrite (counter_causal_interior _ _ H).
  assert (D : (1 : float) <> -1).
  { intros E. apply (f_equal (fun f => f <? 0)) in E. discriminate. }
  destruct Hp as [-> | ->], Hc as [-> | ->]; split;
    try (intros [E1 E2]); try (intros E); try reflexivity;
    try discriminate; try (split; reflexivity);
    try (now contradiction D); try (symmetry in E1; now contradiction D);
    try (symmetry in E2; now contradiction D).
Qed.


(** X7.  With the counter-causal filter on, the loop over the detected
    changepoints never raises on non-negative indices, in range or not:
    an index that is kept is interior, hence a valid index of the
    x-values. *)
Theorem filtered_report_returns (predictor : string)
  (sorted_x_nz signs : list float) (detected : list Z)
  (results : list (string * float)) :
  (len signs <= len sorted_x_nz)%Z ->
  Forall (fun c => (0 <= c)%Z) detected ->
  exists rows,
    report_changepoints true predictor sorted_x_nz signs detected results
    = Ok rows.
Proof.
  intros Hlen Hpos. unfold report_changepoints. revert results.
  induction Hpos as [|c detected Hc _ IH]; intros results; cbn [for_each].
  - eauto.
  - cbn [andb]. destruct (is_counter_causal signs c) eqn:E; cbn [negb].
    + apply counter_causal_is_interior in E; [|exact Hc].
      destruct (getitem_ok sorted_x_nz c) as [x ->]; [lia|]. cbn [rbind].
      apply IH.
    + apply IH.
Qed.

Lemma getitem_out_of_range {A} (l : list A) (c : Z) :
  (len l <= c)%Z \/ (c < - len l)%Z -> getitem l c = Raise IndexError.
Proof.
  unfold getitem, len. intros [H|H].
  - destruct (Z.ltb_spec c 0); [lia|]. destruct (Z.ltb_spec c 0); [lia|].
    destruct (nth_error l (Z.to_nat c)) eqn:E; [|reflexivity].
    assert (nth_error l (Z.to_nat c) <> None) by congruence.
    apply nth_error_Some in H2. lia.
  - destruct (Z.ltb_spec c 0); [|lia].
    destruct (Z.ltb_spec (c + Z.of_nat (length l)) 0); [reflexivity|lia].
Qed.

(** X8.  With the filter off, one detected index outside the x-values
    makes the loop raise [IndexError]. *)
Theorem unfiltered_report_raises (predictor : string)
  (sorted_x_nz signs : list float) (detected : list Z)
  (results : list (string * float)) (c : Z) :
  In c detected ->
  (len sorted_x_nz <= c)%Z \/ (c < - len sorted_x_nz)%Z ->
  report_changepoints false predictor sorted_x_nz signs detected results
  = Raise IndexError.
Proof.
  intros Hin Hc. unfold report_changepoints. revert results.
  induction detected as [|c0 detected IH]; intros results; [destruct Hin|].
  cbn [for_each andb].
  destruct (getitem sorted_x_nz c0) as [x|e] eqn:E; cbn [rbind].
  - destruct Hin as [->|Hin]; [|now apply IH].
    rewrite (getitem_out_of_range _ _ Hc) in E. discriminate.
  - now apply getitem_raise in E as ->.
Qed.

End Signs.

(** ** The candidate loop of find_discontinuities_in_sorted *)

Section MoreDiscontinuities.
Local Open Scope float_scope.

Variable np_exp : float -> float.

(** X10.  [evaluate_discontinuity] raises [AssertionError] exactly when
    the changepoint is not positive, whatever the arrays and the other
    two indices. *)
Theorem assertion_iff (sorted_x sorted_y y_true : list float)
  (prev cp next : Z) :
  evaluate_discontinuity sorted_x sorted_y y_true (prev, cp, next)
  = Raise AssertionError <-> (cp <= 0)%Z.
Proof.
  split.
  - intros H. destruct (Z_le_gt_dec cp 0) as [L|L]; [exact L|].
    exfalso. revert H. apply evaluate_discontinuity_asserts. lia.
  - intros H. unfold evaluate_discontinuity.
    destruct (Z.ltb_spec 0 cp); [lia|reflexivity].
Qed.

(** X12.  A shape function with at most one non-zero slope yields no row:
    the only candidate is the first one, which is skipped. *)
Theorem single_jump_no_rows (sorted_x sorted_y y_true : list float)
  (min_samples : option Z) (st : errstate) (slopes : list float) :
  fst (calc_slopes sorted_x sorted_y st) = Ok slopes ->
  (length (where_ (fun s => (0 <? abs s)%float) slopes) <= 1)%nat ->
  fst (find_discontinuities_in_sorted np_exp sorted_x sorted_y y_true
         min_samples st) = Ok [].
Proof.
  intros Hs Hc. unfold find_discontinuities_in_sorted, bind, lift.
  destruct (calc_slopes sorted_x sorted_y st) as [[s|e] st1]; cbn in Hs;
    [|discriminate].
  injection Hs as ->. cbn [fst].
  destruct (where_ (fun s => 0 <? abs s) slopes) as [|c0 [|c1 t]];
    [reflexivity|reflexivity|cbn in Hc; lia].
Qed.

Lemma where_from_adjacent p start a k v1 v2 :
  nth_error (where_from p start a) k = Some v1 ->
  nth_error (where_from p start a) (S k) = Some v2 ->
  (v1 < v2)%Z.
Proof.
  revert start k; induction a as [|x a IH]; intros start k; cbn [where_from].
  - now destruct k.
  - destruct (p x); [|apply IH].
    destruct k as [|k]; cbn [nth_error].
    + intros [= <-] H.
      change (nth_error (where_from p (start + 1) a) 0 = Some v2) in H.
      apply where_from_lower in H. lia.
    + apply IH.
Qed.

(** The window of a candidate after the first. *)
Lemma candidate_window (p : float -> bool) (slopes : list float)
  (i cp : Z) :
  In (i, cp) (enumerate (where_ p slopes)) -> (1 <= i)%Z ->
  exists prev next,
    getitem (where_ p slopes) (i - 1) = Ok prev /\
    next_changepoint_of (where_ p slopes) i slopes = Ok next /\
    (0 <= prev < cp)%Z /\ (cp <= next < len slopes)%Z.
Proof.
  intros Hin Hi. apply in_enumerate in Hin as [_ Hnth].
  set (cps := where_ p slopes) in *.
  pose proof (where_from_bounds p 0 slopes) as B.
  fold (where_ p slopes) in B. fold cps in B. rewrite Forall_forall in B.
  assert (Hlt : (Z.to_nat i < length cps)%nat)
    by (apply nth_error_Some; congruence).
  exists (nth (Z.to_nat i - 1) cps 0%Z),
         (nth (Z.to_nat i + 1) cps (len slopes - 1)%Z).
  split.
  { replace (i - 1)%Z with (Z.of_nat (Z.to_nat i - 1)) by lia.
    apply getitem_in_range. lia. }
  split.
  { replace i with (Z.of_nat (Z.to_nat i)) at 1 by lia.
    apply next_changepoint_of_nth. }
  assert (Hprev : nth_error cps (Z.to_nat i - 1)
                  = Some (nth (Z.to_nat i - 1) cps 0%Z))
    by (apply nth_error_nth'; lia).
  pose proof (B _ (nth_error_In _ _ Hprev)) as Bp.
  pose proof (B _ (nth_error_In _ _ Hnth)) as Bc.
  split.
  - split; [lia|].
    apply (where_from_adjacent p 0 slopes (Z.to_nat i - 1)); [exact Hprev|].
    replace (S (Z.to_nat i - 1)) with (Z.to_nat i) by lia. exact Hnth.
  - destruct (Nat.lt_ge_cases (Z.to_nat i + 1) (length cps)) as [L|L].
    + assert (Hnext : nth_error cps (Z.to_nat i + 1)
                      = Some (nth (Z.to_nat i + 1) cps (len slopes - 1)%Z))
        by (apply nth_error_nth'; exact L).
      pose proof (B _ (nth_error_In _ _ Hnext)) as Bn.
      split; [|lia].
      apply Z.lt_le_incl.
      apply (where_from_adjacent p 0 slopes (Z.to_nat i)); [exact Hnth|].
      replace (S (Z.to_nat i)) with (Z.to_nat i + 1)%nat by lia. exact Hnext.
    + rewrite nth_overflow by exact L. lia.
Qed.

Lemma for_each_invariant {A S} (I : S -> Prop) (body : S -> A -> result S) l :
  (forall s a r, In a l -> I s -> body s a = Ok r -> I r) ->
  forall s r, I s -> for_each body l s = Ok r -> I r.
Proof.
  induction l as [|a l IH]; intros H s r Hs; cbn [for_each].
  - now intros [= <-].
  - destruct (body s a) as [s'|e] eqn:E; [|discriminate].
    apply IH; [intros; eapply H; eauto; now right|].
    eapply H; eauto. now left.
Qed.

(** The rows of [find_discontinuities_in_sorted]. *)
Lemma emitted_rows_shape (sorted_x sorted_y y_true : list float)
  (min_samples : option Z) (st st' : errstate) (rows : list (list float)) :
  find_discontinuities_in_sorted np_exp sorted_x sorted_y y_true min_samples st
  = (Ok rows, st') ->
  let threshold := match min_samples with Some m => m | None => 100%Z end in
  Forall (fun row =>
            exists x n log_p_diff,
              row = [x; float_of_Z n; np_exp (log_p_diff / float_of_Z n);
                     log_p_diff] /\
              In x sorted_x /\
              (0 <? log_p_diff) = true /\ (threshold < n)%Z /\ (1 <= n)%Z)
         rows.
Proof.
  unfold find_discontinuities_in_sorted, bind, lift.
  destruct (calc_slopes sorted_x sorted_y st) as [[slopes|e] st1];
    [|discriminate].
  intros [= H _]. cbv zeta.
  set (p := fun s => 0 <? abs s) in *.
  eapply for_each_invariant; [|constructor|exact H].
  intros acc [i cp] r Hin Hacc. unfold discontinuity_step.
  destruct (Z.eqb_spec i 0) as [|Hi]; [now intros [= <-]|].
  assert (Hi1 : (1 <= i)%Z) by (apply in_enumerate in Hin; lia).
  destruct (candidate_window p slopes i cp Hin Hi1)
    as (prev & next & -> & -> & Hp & Hn).
  cbn [rbind].
  destruct (evaluate_discontinuity _ _ _ _) as [lpd|e]; cbn [rbind];
    [|discriminate].
  destruct (0 <? lpd) eqn:Hl; cbn [andb]; [|now intros [= <-]].
  destruct (Z.ltb_spec
              match min_samples with
              | Some m => m
              | None => default_min_samples
              end (next - prev)); [|now intros [= <-]].
  destruct (getitem sorted_x cp) as [x|e] eqn:Ex; cbn [rbind]; [|discriminate].
  intros [= <-]. apply Forall_app. split; [exact Hacc|].
  constructor; [|constructor].
  exists x, (next - prev)%Z, lpd. repeat split; try assumption; try lia.
  unfold getitem in Ex. destruct (_ <? 0)%Z; [discriminate|].
  destruct (nth_error sorted_x _) eqn:En; [|discriminate].
  injection Ex as <-. eapply nth_error_In; eauto.
Qed.

(** X11.  For a candidate at a position after the first, the lookups of
    lines 153-157 succeed and give [0 <= prev < cp <= next < len(slopes)]:
    the window is never empty. *)
Theorem window_is_ordered (p : float -> bool) (slopes : list float)
  (i cp : Z) :
  In (i, cp) (enumerate (where_ p slopes)) -> (1 <= i)%Z ->
  exists prev next,
    getitem (where_ p slopes) (i - 1) = Ok prev /\
    next_changepoint_of (where_ p slopes) i slopes = Ok next /\
    (0 <= prev < cp)%Z /\ (cp <= next < len slopes)%Z.
Proof. exact (candidate_window p slopes i cp). Qed.

(** X13.  Every row [find_discontinuities_in_sorted] returns is
    [(x, n, exp(log_p_diff / n), log_p_diff)] with [x] one of the sorted
    x-values, [log_p_diff > 0], [n > min_samples] (100 by default) and
    [n >= 1], so that the division by [n] is never a division by zero. *)
Theorem rows_are_significant (sorted_x sorted_y y_true : list float)
  (min_samples : option Z) (st st' : errstate) (rows : list (list float)) :
  find_discontinuities_in_sorted np_exp sorted_x sorted_y y_true min_samples st
  = (Ok rows, st') ->
  let threshold := match min_samples with Some m => m | None => 100%Z end in
  Forall (fun row =>
            exists x n log_p_diff,
              row = [x; float_of_Z n; np_exp (log_p_diff / float_of_Z n);
                     log_p_diff] /\
              In x sorted_x /\
              (0 <? log_p_diff) = true /\ (threshold < n)%Z /\ (1 <= n)%Z)
         rows.
Proof.
  exact (emitted_rows_shape sorted_x sorted_y y_true min_samples st st' rows).
Qed.

End MoreDiscontinuities.

(** ** Loops over the features *)

Section LoopsInM.

Lemma for_eachM_invariant {A S} (I : S -> Prop) (body : S -> A -> M S) l :
  (forall s a st r st', In a l -> I s -> body s a st = (Ok r, st') -> I r) ->
  forall s st r st', I s -> for_eachM body l s st = (Ok r, st') -> I r.
Proof.
  induction l as [|a l IH]; intros H s st r st' Hs; cbn [for_eachM].
  - unfold ret. now intros [= <- _].
  - unfold bind. destruct (body s a st) as [[s1|e] st1] eqn:E; [|discriminate].
    apply IH; [intros; eapply H; eauto; now right|].
    eapply H; eauto. now left.
Qed.

Lemma for_eachM_appends {A B} (Q : B -> Prop)
  (body : list B -> A -> M (list B)) l :
  (forall s a st r st',
      body s a st = (Ok r, st') -> exists x, r = s ++ [x] /\ Q x) ->
  forall s st r st',
    for_eachM body l s st = (Ok r, st') ->
    exists xs, r = s ++ xs /\ length xs = length l /\ Forall Q xs.
Proof.
  intros H. induction l as [|a l IH]; intros s st r st'; cbn [for_eachM].
  - unfold ret. intros [= <- _]. exists []. now rewrite app_nil_r.
  - unfold bind. destruct (body s a st) as [[s1|e] st1] eqn:E; [|discriminate].
    intros R. destruct (H _ _ _ _ _ E) as (x & -> & Hx).
    destruct (IH _ _ _ _ R) as (xs & -> & Hl & Hq).
    exists (x :: xs). rewrite <- app_assoc. cbn. auto.
Qed.

Lemma getitem_In {A} (l : list A) (i : Z) (x : A) :
  getitem l i = Ok x -> In x l.
Proof.
  unfold getitem. destruct (_ <? 0)%Z; [discriminate|].
  destruct (nth_error l _) eqn:E; [|discriminate].
  intros [= <-]. eapply nth_error_In; eauto.
Qed.

Lemma take_In {A} (a : list A) (idx : list Z) (r : list A) :
  take a idx = Ok r -> forall x, In x r -> In x a.
Proof.
  revert r; induction idx as [|i idx IH]; intros r; cbn [take].
  - intros [= <-] x [].
  - destruct (getitem a i) as [y|e] eqn:E; cbn [rbind]; [|discriminate].
    destruct (take a idx) as [ys|e]; cbn [rbind]; [|discriminate].
    intros [= <-] x [<-|Hx]; [now apply getitem_In in E|now apply (IH ys)].
Qed.

End LoopsInM.

(** ** calculate_slopes *)

Section SlopesOfFrame.

Variable argsort : list float -> list Z.
Context {Explanation : Type}.
Variable calc_embeddings :
  Explanation -> list (list float) -> list (list float).

Lemma calc_slopes_finite (x y slopes : list float) (st st' : errstate) :
  calc_slopes x y st = (Ok slopes, st') ->
  Forall (fun s => is_finite s = true) slopes.
Proof.
  rewrite calc_slopes_run.
  destruct (difference_quotients x y); [|discriminate].
  intros [= <- _]. apply Forall_forall. apply zero_nonfinite_finite.
Qed.

(** X3.  When [calculate_slopes] returns, it returns one slope array per
    column label, and no slope in them is NaN or infinite. *)
Theorem calculate_slopes_per_feature (ebm_global : Explanation)
  (data_df : Frame) (st st' : errstate) (all_slopes : list (list float)) :
  calculate_slopes argsort calc_embeddings ebm_global data_df st
  = (Ok all_slopes, st') ->
  length all_slopes = length (labels data_df) /\
  Forall (Forall (fun s => is_finite s = true)) all_slopes.
Proof.
  unfold calculate_slopes. intros H.
  apply (for_eachM_appends (Forall (fun s => is_finite s = true))) in H.
  - destruct H as (xs & -> & Hl & Hq). cbn [app]. split; [|exact Hq].
    rewrite Hl. unfold enumerate.
    rewrite length_combine, length_map, length_seq. lia.
  - clear. intros s [j predictor] st r st'. unfold bind, lift.
    destruct (column (values data_df) j) as [xs|e]; [|discriminate].
    destruct (take xs (argsort xs)) as [sx|e]; [|discriminate].
    destruct (rbind _ _) as [sy|e]; [|discriminate].
    destruct (calc_slopes sx sy st) as [[sl|e] st1] eqn:E; [|discriminate].
    unfold ret. intros [= <- _]. exists sl. split; [reflexivity|].
    eapply calc_slopes_finite; eauto.
Qed.

End SlopesOfFrame.

(** ** The contents of the tables *)

Section MoreTables.
Local Open Scope float_scope.

Variable np_exp : float -> float.
Variable argsort : list float -> list Z.
Variable float_str : float -> string.
Variable find_changepoints : list float -> float -> list Z.
Context {Explanation : Type}.
Variable calc_embeddings :
  Explanation -> list (list float) -> list (list float).

Lemma insert_desc_perm key r l : Permutation (insert_desc key r l) (r :: l).
Proof.
  induction l as [|r' l IH]; cbn [insert_desc]; [reflexivity|].
  destruct (str_lt (key r') (key r)); [reflexivity|].
  rewrite IH. apply perm_swap.
Qed.

Lemma sort_perm key rows :
  Permutation (fold_right (insert_desc key) [] rows) rows.
Proof.
  induction rows as [|r rows IH]; cbn [fold_right]; [reflexivity|].
  rewrite insert_desc_perm. now constructor.
Qed.

(** Building the table: it exists only for a non-empty list of rows whose
    first row is as wide as the list of labels. *)
Lemma new_DataFrame_ok rows cols df :
  new_DataFrame (array_of_rows rows) cols = Ok df ->
  (2 <= length cols)%nat ->
  rows <> [] /\ df = {| columns := cols; cells := rows |}.
Proof.
  unfold new_DataFrame, array_of_rows. destruct rows as [|r rows].
  - destruct (Nat.eqb_spec 1 (length cols)); [lia|discriminate].
  - destruct (Nat.eqb (length r) (length cols)); [|discriminate].
    intros [= <-] _. split; [discriminate|reflexivity].
Qed.

Lemma collected_discontinuities (ebm_global : Explanation) (data_df : Frame)
  (y_true : list float) (min_samples : option Z) (st st' : errstate)
  (df : DataFrame) :
  find_discontinuities_from_ebm np_exp argsort float_str calc_embeddings
    ebm_global data_df y_true min_samples st = (Ok df, st') ->
  let threshold := match min_samples with Some m => m | None => 100%Z end in
  exists rows,
    rows <> [] /\ Forall (discontinuity_row_ok np_exp float_str data_df threshold) rows /\
    df = sort_values_desc
           {| columns := discontinuity_columns; cells := rows |} "P-Ratio".
Proof.
  unfold find_discontinuities_from_ebm. cbv zeta.
  set (threshold := match min_samples with
                    | Some m => m
                    | None => default_min_samples
                    end).
  unfold bind at 1.
  destruct (for_eachM _ _ _ st) as [[rows|e] st1] eqn:L; [|discriminate].
  unfold bind, lift, ret.
  destruct (new_DataFrame _ _) as [df0|e] eqn:D; [|discriminate].
  intros [= <- _].
  apply new_DataFrame_ok in D as [Hne ->]; [|cbn; lia].
  exists rows. split; [exact Hne|]. split; [|reflexivity].
  revert L. apply for_eachM_invariant; [|constructor].
  clear. intros acc [j predictor] st r st' Hin Hacc. unfold bind, lift.
  apply in_enumerate in Hin as [Hj Hlab].
  destruct (column (values data_df) j) as [xs|e] eqn:Hx; [|discriminate].
  destruct (take xs (argsort xs)) as [sx|e] eqn:Hsx; [|discriminate].
  destruct (rbind _ _) as [sy|e]; [|discriminate].
  destruct (find_discontinuities_in_sorted np_exp sx sy y_true
              (Some threshold) st) as [[fd|e] st1] eqn:F; [|discriminate].
  apply emitted_rows_shape in F. cbv zeta in F.
  destruct (len fd =? 0)%Z; unfold ret; intros [= <- _]; [exact Hacc|].
  apply Forall_app. split; [exact Hacc|].
  unfold tag_rows. apply Forall_map. eapply Forall_impl; [|exact F].
  intros row (x & n & lpd & -> & Hin & Hl & Hn & _).
  exists (Z.to_nat j), predictor, xs, x, n, lpd.
  rewrite Z2Nat.id by exact Hj. repeat split; try assumption.
  eapply take_In; eauto.
Qed.

(** X15.  When [find_discontinuities_from_ebm] returns, the table has the
    five columns and at least one row, and every row holds a label of the
    frame, a value of that label's column, a sample count above
    [min_samples] (100 by default) and a positive score. *)
Theorem discontinuity_table_contents (ebm_global : Explanation)
  (data_df : Frame) (y_true : list float) (min_samples : option Z)
  (st st' : errstate) (df : DataFrame) :
  find_discontinuities_from_ebm np_exp argsort float_str calc_embeddings
    ebm_global data_df y_true min_samples st = (Ok df, st') ->
  let threshold := match min_samples with Some m => m | None => 100%Z end in
  columns df = discontinuity_columns /\
  cells df <> [] /\
  Forall (discontinuity_row_ok np_exp float_str data_df threshold) (cells df).
Proof.
  intros H threshold. apply collected_discontinuities in H.
  destruct H as (rows & Hne & Hrows & ->). fold threshold in Hrows.
  cbn [sort_values_desc columns cells discontinuity_columns index_of
       String.eqb Ascii.eqb Bool.eqb option_map].
  split; [reflexivity|]. split.
  - intros E. apply Hne. apply Permutation_nil.
    rewrite <- E. apply sort_perm.
  - eapply Permutation_Forall; [symmetry; apply sort_perm|exact Hrows].
Qed.

Lemma reported_rows (data_df : Frame) (predictor : string) (j : nat)
  (xs sorted_x_nz signs : list float) (counter_causal_only : bool)
  (detected : list Z) (results rows : list (string * float)) :
  nth_error (labels data_df) j = Some predictor ->
  column (values data_df) (Z.of_nat j) = Ok xs ->
  (forall x, In x sorted_x_nz -> In x xs) ->
  Forall (fun r => non_monotonicity_row_ok float_str data_df
                     [fst r; float_str (snd r)]) results ->
  report_changepoints counter_causal_only predictor sorted_x_nz signs
    detected results = Ok rows ->
  Forall (fun r => non_monotonicity_row_ok float_str data_df
                     [fst r; float_str (snd r)]) rows.
Proof.
  intros Hl Hx Hsub Hres. unfold report_changepoints.
  apply for_each_invariant; [|exact Hres].
  intros acc c r _ Hacc.
  destruct (_ && _); [now intros [= <-]|].
  destruct (getitem sorted_x_nz c) as [x|e] eqn:E; cbn [rbind];
    [|discriminate].
  intros [= <-]. apply Forall_app. split; [exact Hacc|].
  constructor; [|constructor].
  exists j, predictor, xs, x. repeat split; try assumption.
  apply Hsub. eapply getitem_In; eauto.
Qed.

(** X9.  When [find_non_monotonicities_from_ebm] returns, the table has
    the two columns and at least one row, and every row holds a label of
    the frame and a value of that label's column. *)
Theorem non_monotonicity_table_contents (ebm_global : Explanation)
  (data_df : Frame) (prob_threshold : option float)
  (counter_causal_only : option bool) (st st' : errstate) (df : DataFrame) :
  find_non_monotonicities_from_ebm argsort float_str find_changepoints
    calc_embeddings ebm_global data_df prob_threshold counter_causal_only st
  = (Ok df, st') ->
  columns df = non_monotonicity_columns /\
  cells df <> [] /\
  Forall (non_monotonicity_row_ok float_str data_df) (cells df).
Proof.
  unfold find_non_monotonicities_from_ebm, bind, lift.
  destruct (calculate_slopes _ _ _ _ st) as [[slopes|e] st1]; [|discriminate].
  destruct (for_each _ _ _) as [results|e] eqn:L; [|discriminate].
  destruct (new_DataFrame _ _) as [df0|e] eqn:D; [|discriminate].
  intros [= <- _].
  apply new_DataFrame_ok in D as [Hne ->]; [|cbn; lia].
  cbn [columns cells]. split; [reflexivity|]. split; [exact Hne|].
  apply Forall_map. revert L.
  apply for_each_invariant; [|constructor].
  clear. intros acc [j predictor] r Hin Hacc.
  apply in_enumerate in Hin as [Hj Hlab].
  unfold non_monotonicities_of_feature.
  destruct (column (values data_df) j) as [xs|e] eqn:Hx; cbn [rbind];
    [|discriminate].
  destruct (getitem slopes j) as [my_slopes|e]; cbn [rbind]; [|discriminate].
  destruct (take xs (argsort xs)) as [sx|e] eqn:Hsx; cbn [rbind];
    [|discriminate].
  destruct (take sx _) as [sorted_x_nz|e] eqn:Hnz; cbn [rbind];
    [|discriminate].
  destruct (sign_sequence my_slopes) as [signs|e]; cbn [rbind];
    [|discriminate].
  destruct (len signs <? 3)%Z; [now intros [= <-]|].
  apply (reported_rows data_df predictor (Z.to_nat j) xs); try assumption.
  - now rewrite Z2Nat.id.
  - intros x Hxin. eapply take_In; [exact Hsx|]. eapply take_In; eauto.
Qed.

End MoreTables.

(** ** Runs of the properties above *)

Lemma calc_slopes_keeps_other_modes_run :
  invalid
    {| divide := ModeRaise; over := ModeCall; under := ModeLog;
       invalid := ModeWarn |} = ModeWarn /\
  divide
    {| divide := ModeRaise; over := ModeCall; under := ModeLog;
       invalid := ModeWarn |} = ModeRaise /\
  over
    {| divide := ModeRaise; over := ModeCall; under := ModeLog;
       invalid := ModeWarn |} = ModeCall /\
  under
    {| divide := ModeRaise; over := ModeCall; under := ModeLog;
       invalid := ModeWarn |} = ModeLog.
Proof.
  exact (calc_slopes_keeps_other_modes [0; 1]%float [0; 2]%float [2%float]
           {| divide := ModeRaise; over := ModeCall; under := ModeLog;
              invalid := ModeIgnore |}
           {| divide := ModeRaise; over := ModeCall; under := ModeLog;
              invalid := ModeWarn |} eq_refl).
Defined.

Lemma calc_slopes_mismatch_keeps_ignore_run :
  calc_slopes [0; 1; 2]%float [0; 1; 2; 3; 4]%float default_errstate
  = (Raise ValueError,
     {| divide := ModeWarn; over := ModeWarn; under := ModeIgnore;
        invalid := ModeIgnore |}).
Proof.
  apply (calc_slopes_mismatch_keeps_ignore [0; 1; 2]%float
           [0; 1; 2; 3; 4]%float default_errstate);
    [repeat split | cbn; lia ..].
Defined.

Lemma calculate_slopes_per_feature_run :
  length [[1; 1; -1; -1]%float] = 1%nat /\
  Forall (Forall (fun s => is_finite s = true)) [[1; 1; -1; -1]%float].
Proof.
  exact (calculate_slopes_per_feature Fixture.argsort_sorted
           (Fixture.embeddings (map (fun v => [v]) [0; 1; 2; 1; 0]%float)) tt
           (Fixture.one_feature "dose" [1; 2; 3; 4; 5]%float)
           default_errstate default_errstate [[1; 1; -1; -1]%float] eq_refl).
Defined.


Lemma counter_causal_on_signs_run :
  is_counter_causal [1; 1; -1; -1]%float 2 = true
  <-> nth 1 [1; 1; -1; -1]%float 0%float = 1%float /\
      nth 2 [1; 1; -1; -1]%float 0%float = (-1)%float.
Proof.
  apply (counter_causal_on_signs [1; 1; -1; -1]%float 2).
  - cbn. lia.
  - left. reflexivity.
  - right. reflexivity.
Defined.

Lemma filtered_report_returns_run :
  exists rows,
    report_changepoints true "dose" [1; 2; 3; 4]%float [1; 1; -1; -1]%float
      [0; 2; 9]%Z [] = Ok rows.
Proof.
  apply (filtered_report_returns "dose" [1; 2; 3; 4]%float
           [1; 1; -1; -1]%float [0; 2; 9]%Z []).
  - cbn. lia.
  - repeat constructor; lia.
Defined.

Lemma unfiltered_report_raises_run :
  report_changepoints false "dose" [1; 2; 3; 4]%float [1; 1; -1; -1]%float
    [2; 9]%Z [] = Raise IndexError.
Proof.
  apply (unfiltered_report_raises "dose" [1; 2; 3; 4]%float
           [1; 1; -1; -1]%float [2; 9]%Z [] 9%Z).
  - right. left. reflexivity.
  - left. cbn. lia.
Defined.

Lemma non_monotonicity_table_contents_run :
  exists df,
    fst (find_non_monotonicities_from_ebm Fixture.argsort_sorted
           Fixture.whole_float_str (Fixture.detector [3%Z])
           (Fixture.embeddings
              (map (fun v => [v]) [0; 1; 2; 3; 2; 1; 0]%float)) tt
           (Fixture.one_feature "dose" [1; 2; 3; 4; 5; 6; 7]%float)
           None (Some true) default_errstate) = Ok df /\
    columns df = non_monotonicity_columns /\
    cells df <> [] /\
    Forall (non_monotonicity_row_ok Fixture.whole_float_str
              (Fixture.one_feature "dose" [1; 2; 3; 4; 5; 6; 7]%float))
           (cells df).
Proof.
  eexists. split; [reflexivity|].
  apply (non_monotonicity_table_contents Fixture.argsort_sorted
           Fixture.whole_float_str (Fixture.detector [3%Z])
           (Fixture.embeddings
              (map (fun v => [v]) [0; 1; 2; 3; 2; 1; 0]%float)) tt
           (Fixture.one_feature "dose" [1; 2; 3; 4; 5; 6; 7]%float)
           None (Some true) default_errstate default_errstate).
  reflexivity.
Defined.

Lemma window_is_ordered_run :
  exists prev next,
    getitem (where_ (fun s => (0 <? abs s)%float) [1; 0; 3.5; 0]%float)
      (1 - 1) = Ok prev /\
    next_changepoint_of
      (where_ (fun s => (0 <? abs s)%float) [1; 0; 3.5; 0]%float) 1
      [1; 0; 3.5; 0]%float = Ok next /\
    (0 <= prev < 2)%Z /\ (2 <= next < len [1; 0; 3.5; 0]%float)%Z.
Proof.
  apply (window_is_ordered (fun s => (0 <? abs s)%float)
           [1; 0; 3.5; 0]%float 1 2).
  - right. left. reflexivity.
  - lia.
Defined.

Lemma single_jump_no_rows_run :
  fst (find_discontinuities_in_sorted Fixture.exp_stand_in
         [0; 1; 2; 3; 4; 5]%float [0; 0; 0; 10; 10; 10]%float
         [0; 0; 0; 1; 1; 1]%float (Some 0%Z) default_errstate) = Ok [].
Proof.
  apply (single_jump_no_rows Fixture.exp_stand_in
           [0; 1; 2; 3; 4; 5]%float [0; 0; 0; 10; 10; 10]%float
           [0; 0; 0; 1; 1; 1]%float (Some 0%Z) default_errstate
           [0; 0; 10; 0; 0]%float).
  - reflexivity.
  - cbn. lia.
Defined.

Lemma rows_are_significant_run :
  Forall (fun row =>
            exists x n log_p_diff,
              row = [x; float_of_Z n;
                     Fixture.exp_stand_in (log_p_diff / float_of_Z n)%float;
                     log_p_diff] /\
              In x [0; 1; 4; 6; 7; 7.25; 7.5; 8.5; 9; 10; 11]%float /\
              (0 <? log_p_diff)%float = true /\ (3 < n)%Z /\ (1 <= n)%Z)
         [[1; 4; 3.5; 10]; [7.25; 4; 1.5; 2]]%float.
Proof.
  exact (rows_are_significant Fixture.exp_stand_in
           [0; 1; 4; 6; 7; 7.25; 7.5; 8.5; 9; 10; 11]%float
           [0; 1; 2; 2; 2; 3; 4; 4; 4; 5; 5]%float
           [0; 0; 1; 1; 0; 0; 1; 1; 0; 0; 0]%float
           (Some 3%Z) default_errstate default_errstate
           [[1; 4; 3.5; 10]; [7.25; 4; 1.5; 2]]%float eq_refl).
Defined.

Lemma find_discontinuities_in_sorted_returns_run :
  exists rows st',
    find_discontinuities_in_sorted Fixture.exp_stand_in
      [0; 1; 2; 4; 5]%float [0; 1; 1; 8; 8]%float [0; 0; 0; 1; 1]%float
      None default_errstate = (Ok rows, st').
Proof.
  apply (find_discontinuities_in_sorted_returns Fixture.exp_stand_in
           [0; 1; 2; 4; 5]%float [0; 1; 1; 8; 8]%float [0; 0; 0; 1; 1]%float
           None default_errstate); [repeat split | reflexivity ..].
Defined.

Lemma discontinuity_table_contents_run :
  exists df,
    fst (find_discontinuities_from_ebm Fixture.exp_stand_in
           Fixture.argsort_sorted Fixture.whole_float_str
           (Fixture.embeddings
              (map (fun v => [v]) [0; 1; 2; 2; 2; 3; 4; 4; 4; 5; 5]%float))
           tt
           (Fixture.one_feature "dose"
              [0; 1; 4; 6; 7; 7.25; 7.5; 8.5; 9; 10; 11]%float)
           [0; 0; 1; 1; 0; 0; 1; 1; 0; 0; 0]%float
           (Some 3%Z) default_errstate) = Ok df /\
    columns df = discontinuity_columns /\
    cells df <> [] /\
    Forall (discontinuity_row_ok Fixture.exp_stand_in Fixture.whole_float_str
              (Fixture.one_feature "dose"
                 [0; 1; 4; 6; 7; 7.25; 7.5; 8.5; 9; 10; 11]%float) 3)
           (cells df).
Proof.
  eexists. split; [reflexivity|].
  apply (discontinuity_table_contents Fixture.exp_stand_in
           Fixture.argsort_sorted Fixture.whole_float_str
           (Fixture.embeddings
              (map (fun v => [v]) [0; 1; 2; 2; 2; 3; 4; 4; 4; 5; 5]%float))
           tt
           (Fixture.one_feature "dose"
              [0; 1; 4; 6; 7; 7.25; 7.5; 8.5; 9; 10; 11]%float)
           [0; 0; 1; 1; 0; 0; 1; 1; 0; 0; 0]%float
           (Some 3%Z) default_errstate default_errstate).
  reflexivity.
Defined.
